(** * plot_resampler.py: parser, normaliser and spectrum pipeline

    A shallow embedding of [python_scripts/plot_resampler.py].

    - Text is [string], over characters with code points below 256. A
      file is the text that [open(filename, 'r')] decodes from it; the
      cutting into lines, with its newline translation, is [readlines].
    - Python integers are [Z].
    - NumPy float64 arrays are [list R]: arithmetic is exact real
      arithmetic, so rounding, overflow, infinities and NaN are outside the
      model.  Complex FFT bins are pairs of reals.
    - An integer array is the [list Z] of its values. This is what
      [np.array] makes of a list of Python integers that all fit a signed
      64-bit integer ([fits_int64]); on other lists NumPy picks another
      dtype (uint64, float64 with rounded values, or object), division can
      raise [OverflowError] and the FFT [TypeError], and the model does not
      follow. Theorems on what [parse_file] returns as arrays and on what
      [main] does with them carry that bound as a hypothesis.
    - A file is absent or is a text that [open] reads; a directory, a file
      without read permission and a file that does not decode are outside
      the model.
    - Exceptions are the type [exn]; a computation that may raise returns a
      [result]; a computation that also prints or draws is a [Prog], which
      carries the trace of what was printed and drawn before it returned
      or raised. *)

From Stdlib Require Import String Ascii List ZArith Arith Bool Lia.
From Stdlib Require Import DecimalString DecimalPos DecimalZ.
From Stdlib Require Import Reals Lra.
Import ListNotations.

Local Open Scope string_scope.
Local Open Scope list_scope.

(** ** Exceptions, results and traced programs *)

Inductive exn : Type :=
| FileNotFoundError
| ValueError
| IndexError
| ZeroDivisionError
| SystemExit (code : option Z).

Inductive result (A : Type) : Type :=
| Ok (a : A)
| Raise (e : exn).

Arguments Ok {A} a.
Arguments Raise {A} e.

Definition rbind {A B : Type} (m : result A) (f : A -> result B) : result B :=
  match m with
  | Ok a => f a
  | Raise e => Raise e
  end.

(** What the script does to the outside world: a line on standard output,
    one of the two figures (with the data series handed to [ax.plot]), and
    the final [plt.show()]. *)
Inductive event : Type :=
| Stdout (line : string)
| TimeFigure (sig_in sig_mid sig_out : list R)
| FreqFigure (spec_in spec_mid spec_out : list R * list R)
| PltShow.

Definition Prog (A : Type) : Type := (list event * result A)%type.

Definition ret {A : Type} (a : A) : Prog A := ([], Ok a).

Definition bind {A B : Type} (m : Prog A) (f : A -> Prog B) : Prog B :=
  match m with
  | (t, Ok a) => let (t', r) := f a in (t ++ t', r)
  | (t, Raise e) => (t, Raise e)
  end.

Definition emit (e : event) : Prog unit := ([e], Ok tt).

Definition print (line : string) : Prog unit := emit (Stdout line).

Definition raise {A : Type} (e : exn) : Prog A := ([], Raise e).

Definition lift {A : Type} (r : result A) : Prog A := ([], r).

(** [try: body except FileNotFoundError: handler]. *)
Definition try_except_FileNotFoundError {A : Type}
    (body : Prog A) (handler : Prog A) : Prog A :=
  match body with
  | (t, Raise FileNotFoundError) => let (t', r) := handler in (t ++ t', r)
  | other => other
  end.

(** The site builtin [exit()] called without an argument. *)
Definition exit {A : Type} : Prog A := raise (SystemExit None).

Declare Scope prog_scope.
Delimit Scope prog_scope with prog.
Notation "x <- m ;; k" := (bind m (fun x => k))
  (at level 61, m at next level, right associativity) : prog_scope.
Notation "m ;;; k" := (bind m (fun _ => k))
  (at level 61, right associativity) : prog_scope.

Declare Scope result_scope.
Delimit Scope result_scope with result.
Notation "x <- m ;; k" := (rbind m (fun x => k))
  (at level 61, m at next level, right associativity) : result_scope.

(** How the interpreter ends a run: status 0 when the module body runs to
    its end, the status carried by [SystemExit] (0 when it carries none),
    and status 1 with a traceback on standard error for any other
    exception that nothing caught. *)
Definition exit_status {A : Type} (r : result A) : Z :=
  match r with
  | Ok _ => 0
  | Raise (SystemExit None) => 0
  | Raise (SystemExit (Some n)) => n
  | Raise _ => 1
  end%Z.

Definition traceback_printed {A : Type} (r : result A) : bool :=
  match r with
  | Ok _ => false
  | Raise (SystemExit _) => false
  | Raise _ => true
  end.

(** ** Text primitives: [str.strip], [str.startswith], [str.split], [int] *)

Definition LF : ascii := ascii_of_nat 10.
Definition CR : ascii := ascii_of_nat 13.

(** [str.isspace] on one character with code point below 256. *)
Definition isspace (c : ascii) : bool :=
  let n := nat_of_ascii c in
  (((9 <=? n) && (n <=? 13)) || ((28 <=? n) && (n <=? 32))
   || (n =? 133) || (n =? 160))%nat.

Definition is_empty (s : string) : bool :=
  match s with
  | EmptyString => true
  | String _ _ => false
  end.

Fixpoint lstrip (s : string) : string :=
  match s with
  | EmptyString => EmptyString
  | String c s' => if isspace c then lstrip s' else s
  end.

Fixpoint rstrip (s : string) : string :=
  match s with
  | EmptyString => EmptyString
  | String c s' =>
      let r := rstrip s' in
      if isspace c && is_empty r then EmptyString else String c r
  end.

Definition strip (s : string) : string := rstrip (lstrip s).

Fixpoint startswith (s p : string) : bool :=
  match p with
  | EmptyString => true
  | String a p' =>
      match s with
      | EmptyString => false
      | String b s' => Ascii.eqb a b && startswith s' p'
      end
  end.

Fixpoint string_rev_append (s acc : string) : string :=
  match s with
  | EmptyString => acc
  | String c s' => string_rev_append s' (String c acc)
  end.

(** A pending token, held in reverse, becomes a list item unless empty. *)
Definition flush (cur : string) : list string :=
  match cur with
  | EmptyString => []
  | _ => [string_rev_append cur EmptyString]
  end.

Fixpoint split_go (cur : string) (s : string) : list string :=
  match s with
  | EmptyString => flush cur
  | String c s' =>
      if isspace c then flush cur ++ split_go EmptyString s'
      else split_go (String c cur) s'
  end.

(** [s.split()] with no argument: maximal runs of non-whitespace. *)
Definition split (s : string) : list string := split_go EmptyString s.

(** [l[-1]]. *)
Definition index_last {A : Type} (l : list A) : result A :=
  match rev l with
  | [] => Raise IndexError
  | x :: _ => Ok x
  end.

Definition digit_value (c : ascii) : option Z :=
  let n := nat_of_ascii c in
  if ((48 <=? n) && (n <=? 57))%nat then Some (Z.of_nat (n - 48)) else None.

(** Digits with single underscores allowed between them; returns the value
    and the number of digits read. *)
Fixpoint int_digits (s : string) (acc : Z) (count : nat) (after_digit : bool)
  : option (Z * nat) :=
  match s with
  | EmptyString => if after_digit then Some (acc, count) else None
  | String c s' =>
      match digit_value c with
      | Some d => int_digits s' (10 * acc + d)%Z (S count) true
      | None =>
          if Ascii.eqb c "_"%char && after_digit
          then int_digits s' acc count false
          else None
      end
  end.

(** CPython's default cap on the digits of a decimal literal handed to
    [int] ([sys.get_int_max_str_digits()]). *)
Definition int_max_str_digits : nat := 4300.

Definition int_unsigned (s : string) : result Z :=
  match int_digits s 0%Z 0 false with
  | Some (v, count) =>
      if (count <=? int_max_str_digits)%nat then Ok v else Raise ValueError
  | None => Raise ValueError
  end.

(** The whitespace that [int] skips around a literal that holds ASCII
    characters only: C's [isspace]. *)
Definition c_isspace (c : ascii) : bool :=
  let n := nat_of_ascii c in
  (((9 <=? n) && (n <=? 13)) || (n =? 32))%nat.

Definition is_ascii (s : string) : bool :=
  forallb (fun c => (nat_of_ascii c <? 128)%nat) (list_ascii_of_string s).

Fixpoint lstrip_by (space : ascii -> bool) (s : string) : string :=
  match s with
  | EmptyString => EmptyString
  | String c s' => if space c then lstrip_by space s' else s
  end.

Fixpoint rstrip_by (space : ascii -> bool) (s : string) : string :=
  match s with
  | EmptyString => EmptyString
  | String c s' =>
      let r := rstrip_by space s' in
      if space c && is_empty r then EmptyString else String c r
  end.

(** What [int] drops around the literal: on an ASCII string the characters
    of C's [isspace]; on any other string every character of
    [str.isspace], which it first turns into blanks. *)
Definition int_strip (s : string) : string :=
  let space := if is_ascii s then c_isspace else isspace in
  rstrip_by space (lstrip_by space s).

(** [int(s)] for a [str] argument, base 10. *)
Definition py_int (s : string) : result Z :=
  match int_strip s with
  | String "+"%char r => int_unsigned r
  | String "-"%char r => rbind (int_unsigned r) (fun v => Ok (- v)%Z)
  | t => int_unsigned t
  end.

(** [for line in f]: the text cut after each line ending; [\r\n] and a lone
    [\r] are handed over as [\n], and a final line without ending is a line
    too. [cur] is the line being read, in reverse. *)
Fixpoint readlines_go (cur : string) (s : string) : list string :=
  match s with
  | EmptyString => flush cur
  | String c s' =>
      if Ascii.eqb c LF then
        string_rev_append (String LF cur) EmptyString
          :: readlines_go EmptyString s'
      else if Ascii.eqb c CR then
        match s' with
        | String c' s'' =>
            if Ascii.eqb c' LF then
              string_rev_append (String LF cur) EmptyString
                :: readlines_go EmptyString s''
            else
              string_rev_append (String LF cur) EmptyString
                :: readlines_go EmptyString s'
        | EmptyString => [string_rev_append (String LF cur) EmptyString]
        end
      else readlines_go (String c cur) s'
  end.

Definition readlines (text : string) : list string :=
  readlines_go EmptyString text.

(** ** Configuration *)

Definition FILENAME : string := "resampler_output.txt".

(** ** parse_file *)

(** A file system, as far as the model goes: under each name the text
    that [open(filename, 'r')] reads, or nothing when there is no such
    file. The other ways [open] and the reading can fail (a directory, no
    read permission, bytes that do not decode) are not modelled. *)
Definition filesystem : Type := string -> option string.

Definition streams : Type := (list Z * list Z * list Z)%type.

(** [val = int(line.split()[-1])]. *)
Definition last_token_value (line : string) : result Z :=
  (tok <- index_last (split line) ;; py_int tok)%result.

(** The body of the [with] block: the loop over the lines, with the three
    lists it appends to. *)
Fixpoint parse_loop (lines : list string) (data_in data_mid data_out : list Z)
  : result streams :=
  match lines with
  | [] => Ok (data_in, data_mid, data_out)
  | line :: rest =>
      let line := strip line in
      if startswith line "IN:" then
        (val <- last_token_value line ;;
         parse_loop rest (data_in ++ [val]) data_mid data_out)%result
      else if startswith line "MID:" then
        (val <- last_token_value line ;;
         parse_loop rest data_in (data_mid ++ [val]) data_out)%result
      else if startswith line "OUT:" then
        (val <- last_token_value line ;;
         parse_loop rest data_in data_mid (data_out ++ [val]))%result
      else parse_loop rest data_in data_mid data_out
  end.

Definition open_read (fs : filesystem) (filename : string) : Prog string :=
  match fs filename with
  | Some text => ret text
  | None => raise FileNotFoundError
  end.

(** The three lists are returned through [np.array]: for lists within
    [fits_int64] these are the int64 arrays of the same values, which is
    how the model reads the [list Z] it returns. *)
Definition parse_file (fs : filesystem) (filename : string) : Prog streams :=
  (print ("Reading " ++ filename ++ "...") ;;;
   try_except_FileNotFoundError
     (text <- open_read fs filename ;;
      lift (parse_loop (readlines text) [] [] []))
     (print ("Error: Could not find " ++ filename
             ++ ". Run the simulation first.") ;;;
      exit))%prog.

(** ** Numeric configuration *)

Local Open Scope R_scope.

Definition FS_IN : R := 9.0e6.
Definition L : Z := 2.
Definition M : Z := 3.
Definition FS_MID : R := FS_IN * IZR L.
Definition FS_OUT : R := FS_MID / IZR M.

Definition NORM_FACTOR : R := 30000.0.

(** ** The NumPy operations the script calls

    Each follows NumPy's documented definition, over exact reals. *)

Definition complex : Type := (R * R)%type.

(** [x / y] on Python floats. *)
Definition py_truediv (x y : R) : result R :=
  if Req_EM_T y 0 then Raise ZeroDivisionError else Ok (x / y).

(** [a / d] for an int64 array and a non-zero float: each element's
    quotient, read as a real. An array of another dtype is outside the
    model (see the head of the file). *)
Definition true_divide (a : list Z) (d : R) : list R :=
  map (fun x => IZR x / d) a.

(** [np.arange(lo, hi)] on integers. *)
Definition arange (lo hi : Z) : list Z :=
  map (fun i => (lo + Z.of_nat i)%Z) (seq 0 (Z.to_nat (hi - lo))).

(** [np.hamming(M)]: empty below one point, [1.0] for one point, and
    [0.54 + 0.46*cos(pi*n/(M-1))] for [n = 1-M, 3-M, ..., M-1] otherwise. *)
Definition np_hamming (m : nat) : list R :=
  if (m <? 1)%nat then []
  else if (m =? 1)%nat then [1]
  else map (fun n => 0.54 + 0.46 * cos (PI * IZR n / IZR (Z.of_nat m - 1)))
           (map (fun k => (1 - Z.of_nat m + 2 * Z.of_nat k)%Z) (seq 0 m)).

(** [a * b] for two arrays of one length. *)
Definition multiply (a b : list R) : list R :=
  map (fun p => fst p * snd p) (combine a b).

Definition Rsum (l : list R) : R := fold_right Rplus 0 l.

(** Bin [k] of the discrete Fourier transform of [a]:
    the sum over [m] of [a[m] * exp(-2*pi*i*m*k/n)]. *)
Definition dft_bin (a : list R) (k : nat) : complex :=
  let n := length a in
  let angle (m : nat) := 2 * PI * INR m * INR k / INR n in
  (Rsum (map (fun p => snd p * cos (angle (fst p))) (combine (seq 0 n) a)),
   Rsum (map (fun p => - (snd p * sin (angle (fst p)))) (combine (seq 0 n) a))).

(** [np.fft.fft(a)]: refuses an empty array. *)
Definition np_fft (a : list R) : result (list complex) :=
  if (length a <? 1)%nat then Raise ValueError
  else Ok (map (dft_bin a) (seq 0 (length a))).

(** The bin numbers [np.fft.fftfreq] lays out for [n] points:
    [0 .. N-1] with [N = (n-1)//2 + 1], followed by [-(n//2) .. -1]. *)
Definition fftfreq_bins (n : nat) : list Z :=
  let N := ((Z.of_nat n - 1) / 2 + 1)%Z in
  arange 0 N ++ arange (- (Z.of_nat n / 2)) 0.

(** [np.fft.fftfreq(n, d)]: [val = 1.0/(n*d)], then each bin number times
    [val]. *)
Definition np_fftfreq (n : nat) (d : R) : result (list R) :=
  (val <- py_truediv 1 (INR n * d) ;;
   let results := fftfreq_bins n in
   Ok (map (fun i => IZR i * val) results))%result.

Definition np_abs (z : complex) : R := sqrt (fst z * fst z + snd z * snd z).

Definition np_log10 (x : R) : R := ln x / ln 10.

(** [np.max(a)]: refuses an empty array. *)
Definition np_max (a : list R) : result R :=
  match a with
  | [] => Raise ValueError
  | x :: xs => Ok (fold_left Rmax xs x)
  end.

(** ** get_fft_db *)

Definition get_fft_db (sig : list R) (fs : R) : result (list R * list R) :=
  let window := np_hamming (length sig) in
  let sig_windowed := multiply sig window in
  (fft_val <- np_fft sig_windowed ;;
   d <- py_truediv 1 fs ;;
   fft_freq <- np_fftfreq (length sig) d ;;
   let half_n := (length sig / 2)%nat in
   let fft_val := firstn half_n fft_val in
   let fft_freq := firstn half_n fft_freq in
   let mag := map (fun z => 20 * np_log10 (np_abs z + 1e-12)) fft_val in
   Ok (fft_freq, mag))%result.

(** ** The two plotters *)

(** The figure's three rows plot the three arguments as they come; titles,
    grids, legends and axis limits are not part of the trace. *)
Definition plot_time_domain (sig_in sig_mid sig_out : list R) : Prog unit :=
  emit (TimeFigure sig_in sig_mid sig_out).

(** One row of the spectrum figure: frequency in MHz against magnitude
    relative to the reference level. *)
Definition spectrum_row (f mag : list R) (ref_level : R) : list R * list R :=
  (map (fun x => x / 1e6) f, map (fun m => m - ref_level) mag).

Definition plot_frequency_domain (sig_in sig_mid sig_out : list R)
  : Prog unit :=
  (s_in <- lift (get_fft_db sig_in FS_IN) ;;
   s_mid <- lift (get_fft_db sig_mid FS_MID) ;;
   s_out <- lift (get_fft_db sig_out FS_OUT) ;;
   let '(f_in, mag_in) := s_in in
   let '(f_mid, mag_mid) := s_mid in
   let '(f_out, mag_out) := s_out in
   ref_level <- lift (np_max mag_in) ;;
   emit (FreqFigure (spectrum_row f_in mag_in ref_level)
                    (spectrum_row f_mid mag_mid ref_level)
                    (spectrum_row f_out mag_out ref_level)))%prog.

(** ** Main execution *)

(** [f"{n}"] for a length. *)
Definition string_of_nat (n : nat) : string :=
  NilEmpty.string_of_uint (Nat.to_uint n).

Definition samples_read_line (s : streams) : string :=
  let '(s_in_raw, s_mid_raw, s_out_raw) := s in
  ("Samples Read -> In: " ++ string_of_nat (length s_in_raw)
   ++ ", Mid: " ++ string_of_nat (length s_mid_raw)
   ++ ", Out: " ++ string_of_nat (length s_out_raw))%string.

(** The module body. The division and the two plotters are those of int64
    arrays: see [fits_int64]. *)
Definition main (fs : filesystem) : Prog unit :=
  (raw <- parse_file fs FILENAME ;;
   let '(s_in_raw, s_mid_raw, s_out_raw) := raw in
   print (samples_read_line raw) ;;;
   if (0 <? length s_in_raw)%nat then
     print "Normalizing all signals by Fixed Factor: 30000.0" ;;;
     let s_in := true_divide s_in_raw NORM_FACTOR in
     let s_mid := true_divide s_mid_raw NORM_FACTOR in
     let s_out := true_divide s_out_raw NORM_FACTOR in
     plot_time_domain (firstn 200 s_in) (firstn 400 s_mid) (firstn 150 s_out) ;;;
     plot_frequency_domain s_in s_mid s_out ;;;
     emit PltShow
   else ret tt)%prog.

(** The script run as a process: what it printed and drew, its exit status,
    and whether the interpreter printed a traceback. *)
Definition run_script (fs : filesystem) : list event * Z * bool :=
  let (trace, r) := main fs in (trace, exit_status r, traceback_printed r).

(** A file system that holds the log file with the given text, and nothing
    else. *)
Definition fs_with (text : string) : filesystem :=
  fun name => if String.eqb name FILENAME then Some text else None.

Definition fs_empty : filesystem := fun _ => None.

(** ** The specification's vocabulary

    These definitions follow the words of the specification, not the code:
    they are what the theorems below compare the code with. *)

Local Open Scope nat_scope.

(** The lines of the file, each stripped of surrounding whitespace. *)
Definition stripped_lines (text : string) : list string :=
  map strip (readlines text).

(** The stripped lines that begin with a given literal prefix, in file
    order. *)
Definition prefixed_lines (p : string) (text : string) : list string :=
  filter (fun l => startswith l p) (stripped_lines text).

(** A sample line begins with one of the three stream prefixes. *)
Definition is_sample_line (l : string) : bool :=
  startswith l "IN:" || startswith l "MID:" || startswith l "OUT:".

(** The last whitespace-separated token of a line. *)
Definition last_token (l : string) : string := last (split l) EmptyString.

Definition is_ok {A : Type} (r : result A) : bool :=
  match r with
  | Ok _ => true
  | Raise _ => false
  end.

(** A well-formed file: the last token of every sample line is a base-10
    integer that [int] accepts. *)
Definition well_formed (text : string) : bool :=
  forallb (fun l => implb (is_sample_line l) (is_ok (py_int (last_token l))))
          (stripped_lines text).

(** A stream reads the file: its samples are, one for one and in file
    order, the integers that [int] reads from the last token of the stripped
    lines that begin with the stream's prefix. *)
Definition stream_reads (p : string) (text : string) (data : list Z) : Prop :=
  Forall2 (fun v l => py_int (last_token l) = Ok v) data (prefixed_lines p text).

(** A malformed sample line: it carries a stream prefix and [int] rejects
    its last token. *)
Definition malformed_line (l : string) : bool :=
  is_sample_line l && negb (is_ok (py_int (last_token l))).

(** ** The range in which the arrays of the model are NumPy's *)

(** A value that a signed 64-bit integer holds. *)
Definition int64_range (z : Z) : bool :=
  ((- 2 ^ 63 <=? z) && (z <? 2 ^ 63))%Z.

(** A list of Python integers that [np.array] turns into an int64 array of
    the same values. *)
Definition fits_int64 (data : list Z) : bool := forallb int64_range data.

(** A text in which every sample that [int] reads fits a signed 64-bit
    integer. *)
Definition samples_fit_int64 (text : string) : bool :=
  forallb (fun l => implb (is_sample_line l)
                      match py_int (last_token l) with
                      | Ok v => int64_range v
                      | Raise _ => true
                      end)
          (stripped_lines text).

(** ** Rounding in float64 *)




(** The text of a file whose lines are the given ones, each ended by a
    newline. *)
Definition unlines (ls : list string) : string :=
  fold_right (fun l acc => (l ++ String LF acc)%string) EmptyString ls.

(** ** Sample log files *)

(** The four lines of the specification's first end-to-end scenario. *)
Definition scenario_1 : string :=
  unlines ["IN: 15000"; "IN: -15000"; "MID: 30000"; "OUT: 0"]%string.

(** A log with padding, several tokens on a line, a signed literal with an
    underscore, and lines that belong to no stream. *)
Definition mixed_log : string :=
  unlines ["IN: 15000"; "# resampler run"; "MID: sample 3 = 12";
           "   OUT: -7  "; "GARBAGE: 123"; "IN: +1_0"]%string.

(** A log with no input sample. *)
Definition no_input_log : string :=
  unlines ["MID: 5"; "OUT: 7"; "OUT: 9"]%string.

(** A log whose second sample line ends in a token that is no integer. *)
Definition malformed_log : string :=
  unlines ["IN: 1"; "MID: 2.5"; "OUT: 3"]%string.

(** A log with a single input sample. *)
Definition one_sample_log : string :=
  unlines ["IN: 5"; "MID: 1"; "MID: 2"; "OUT: 1"]%string.

(** A log with input samples only. *)
Definition input_only_log : string :=
  unlines ["IN: 1"; "IN: 2"; "IN: 3"]%string.

(** ** Vocabulary for the further properties *)

(** Whether every character of a string is whitespace. *)
Fixpoint all_space (s : string) : bool :=
  match s with
  | EmptyString => true
  | String c s' => isspace c && all_space s'
  end.

(** Whether no character of a string is whitespace. *)
Fixpoint no_space (s : string) : bool :=
  match s with
  | EmptyString => true
  | String c s' => negb (isspace c) && no_space s'
  end.

(** Whether a character occurs in a string. *)
Fixpoint has_char (c : ascii) (s : string) : bool :=
  match s with
  | EmptyString => false
  | String c' s' => Ascii.eqb c' c || has_char c s'
  end.

(** The same text with Windows line endings: every [\n] becomes [\r\n]. *)
Fixpoint crlf (s : string) : string :=
  match s with
  | EmptyString => EmptyString
  | String c s' =>
      if Ascii.eqb c LF then String CR (String LF (crlf s'))
      else String c (crlf s')
  end.

(** The three streams, as tags of log entries. *)
Inductive stream_tag : Type := TagIn | TagMid | TagOut.

Definition tag_eqb (t u : stream_tag) : bool :=
  match t, u with
  | TagIn, TagIn | TagMid, TagMid | TagOut, TagOut => true
  | _, _ => false
  end.

Definition tag_prefix (t : stream_tag) : string :=
  match t with
  | TagIn => "IN:"
  | TagMid => "MID:"
  | TagOut => "OUT:"
  end.

(** An integer in plain decimal: a minus sign if negative, then the digits
    without leading zeros. *)
Definition string_of_Z (z : Z) : string :=
  NilEmpty.string_of_int (Z.to_int z).

(** The number of decimal digits of an integer. *)
Definition decimal_digits (z : Z) : nat :=
  match Z.to_int z with
  | Decimal.Pos d => Decimal.nb_digits d
  | Decimal.Neg d => Decimal.nb_digits d
  end.

(** A log line for one sample: the prefix, one space, the value. *)
Definition log_line (e : stream_tag * Z) : string :=
  (tag_prefix (fst e) ++ String " " (string_of_Z (snd e)))%string.

(** The log file that lists the given samples, one per line. *)
Definition write_log (entries : list (stream_tag * Z)) : string :=
  unlines (map log_line entries).

(** The samples of one stream among the entries, in order. *)
Definition samples_of (t : stream_tag) (entries : list (stream_tag * Z))
  : list Z :=
  map snd (filter (fun e => tag_eqb (fst e) t) entries).

(** A log longer than any of the three time windows: 201 input samples,
    401 intermediate ones and 151 output ones. *)
Definition long_log : string :=
  write_log (repeat (TagIn, 1%Z) 201 ++ repeat (TagMid, 2%Z) 401
             ++ repeat (TagOut, 3%Z) 151).

(** What two results of the loop make when one log follows the other: the
    streams of the first followed by those of the second, or the first
    error met. *)
Definition streams_app (r1 r2 : result streams) : result streams :=
  match r1 with
  | Ok (a, b, c) =>
      match r2 with
      | Ok (a', b', c') => Ok (a ++ a', b ++ b', c ++ c')
      | Raise e => Raise e
      end
  | Raise e => Raise e
  end.

(** Whether an event is one of the two figures or their display. *)
Definition is_plot_event (e : event) : bool :=
  match e with
  | Stdout _ => false
  | _ => true
  end.

(** * Properties *)

(** ** Text primitives *)

Example strip_padded : strip "   OUT: -7  " = "OUT: -7".
Proof. reflexivity. Qed.

Example split_runs : split "MID: sample 3 = 12" = ["MID:"; "sample"; "3"; "="; "12"].
Proof. reflexivity. Qed.

Example split_blank : split "   " = [].
Proof. reflexivity. Qed.

Example py_int_signed : py_int "-15000" = Ok (-15000)%Z.
Proof. reflexivity. Qed.

Example py_int_underscore : py_int "+1_0" = Ok 10%Z.
Proof. reflexivity. Qed.

Example py_int_leading_zeros : py_int "007" = Ok 7%Z.
Proof. reflexivity. Qed.

Example py_int_rejects :
  map py_int ["abc"; "2.5"; ""; "-"; "1__0"; "_1"; "1_"; "0x10"; "IN:5"]
  = repeat (Raise ValueError) 9.
Proof. reflexivity. Qed.

(** Around an ASCII literal [int] skips C's whitespace only, so a file
    separator (code 28) is not dropped; next to a character beyond ASCII it
    is. *)
Example py_int_padding :
  py_int (String " " (String "5" (String (ascii_of_nat 10) ""))) = Ok 5%Z
  /\ py_int (String (ascii_of_nat 28) "5") = Raise ValueError
  /\ py_int (String (ascii_of_nat 28) (String "5" (String (ascii_of_nat 160) "")))
     = Ok 5%Z.
Proof. repeat split; reflexivity. Qed.

Example readlines_endings :
  readlines (String "a" (String LF (String "b" (String CR (String LF
               (String CR "c"))))))
  = [String "a" (String LF ""); String "b" (String LF ""); String LF ""; "c"].
Proof. reflexivity. Qed.

Lemma flush_nonempty (c : ascii) (cur : string) : flush (String c cur) <> [].
Proof. simpl; discriminate. Qed.

Lemma split_go_nonempty (s : string) :
  forall (c : ascii) (cur : string), split_go (String c cur) s <> [].
Proof.
  induction s as [|a s IH]; intros c cur.
  - apply flush_nonempty.
  - simpl split_go. destruct (isspace a).
    + simpl. discriminate.
    + apply IH.
Qed.

(** A line that begins with a character that is not whitespace has at least
    one token. *)
Lemma split_nonempty (c : ascii) (s : string) :
  isspace c = false -> split (String c s) <> [].
Proof.
  intros Hc. unfold split. simpl. rewrite Hc. apply split_go_nonempty.
Qed.

Lemma index_last_last {A : Type} (l : list A) (d : A) :
  l <> [] -> index_last l = Ok (last l d).
Proof.
  intros Hl. destruct (exists_last Hl) as [l' [x ->]].
  unfold index_last. rewrite rev_app_distr, last_last. reflexivity.
Qed.

Ltac startswith_inv H :=
  repeat match type of H with
         | startswith ?l _ = true =>
             let E := fresh "E" in
             destruct l; cbn [startswith] in H; [discriminate|];
             apply andb_prop in H; destruct H as [E H];
             apply Ascii.eqb_eq in E; subst
         end.

Lemma startswith_IN (l : string) :
  startswith l "IN:" = true -> exists r, l = ("IN:" ++ r)%string.
Proof.
  intros H. startswith_inv H. eexists; reflexivity.
Qed.

Lemma startswith_MID (l : string) :
  startswith l "MID:" = true -> exists r, l = ("MID:" ++ r)%string.
Proof.
  intros H. startswith_inv H. eexists; reflexivity.
Qed.

Lemma startswith_OUT (l : string) :
  startswith l "OUT:" = true -> exists r, l = ("OUT:" ++ r)%string.
Proof.
  intros H. startswith_inv H. eexists; reflexivity.
Qed.

(** The three prefixes exclude one another, so the order of the [elif]
    chain decides nothing. *)
Lemma sample_line_cases (l : string) :
  is_sample_line l = true ->
  (startswith l "IN:" = true /\ startswith l "MID:" = false
   /\ startswith l "OUT:" = false)
  \/ (startswith l "IN:" = false /\ startswith l "MID:" = true
      /\ startswith l "OUT:" = false)
  \/ (startswith l "IN:" = false /\ startswith l "MID:" = false
      /\ startswith l "OUT:" = true).
Proof.
  unfold is_sample_line. intros H.
  destruct (startswith l "IN:") eqn:Hi.
  - left. apply startswith_IN in Hi as [r ->]. repeat split; reflexivity.
  - destruct (startswith l "MID:") eqn:Hm.
    + right; left. apply startswith_MID in Hm as [r ->].
      repeat split; reflexivity.
    + right; right. simpl in H. repeat split; assumption.
Qed.

(** On a sample line the indexing [line.split()[-1]] cannot fail, and the
    value read is [int] of the last token. *)
Lemma last_token_value_sample (l : string) :
  is_sample_line l = true -> last_token_value l = py_int (last_token l).
Proof.
  intros H. unfold last_token_value, last_token.
  assert (Hne : split l <> []).
  { destruct (sample_line_cases l H) as [[Hp _]|[[_ [Hp _]]|[_ [_ Hp]]]].
    - apply startswith_IN in Hp as [r ->]. apply split_nonempty. reflexivity.
    - apply startswith_MID in Hp as [r ->]. apply split_nonempty. reflexivity.
    - apply startswith_OUT in Hp as [r ->]. apply split_nonempty. reflexivity. }
  rewrite (index_last_last _ EmptyString Hne). reflexivity.
Qed.

Lemma int_unsigned_raises (s : string) (e : exn) :
  int_unsigned s = Raise e -> e = ValueError.
Proof.
  unfold int_unsigned.
  destruct (int_digits s 0%Z 0 false) as [[v count]|];
    [destruct (count <=? int_max_str_digits)|]; congruence.
Qed.

(** [int] raises nothing but [ValueError]. *)
Lemma py_int_raises (s : string) (e : exn) :
  py_int s = Raise e -> e = ValueError.
Proof.
  unfold py_int.
  assert (Hneg : forall r, rbind (int_unsigned r) (fun v => Ok (- v)%Z)
                           = Raise e -> e = ValueError).
  { intros r. destruct (int_unsigned r) eqn:Hr; simpl; [discriminate|].
    intros [= <-]. eapply int_unsigned_raises; eassumption. }
  destruct (int_strip s) as [|c r] eqn:Hs.
  - apply int_unsigned_raises.
  - destruct (Ascii.eqb c "+") eqn:Hplus.
    + apply Ascii.eqb_eq in Hplus; subst c. apply int_unsigned_raises.
    + destruct (Ascii.eqb c "-") eqn:Hminus.
      * apply Ascii.eqb_eq in Hminus; subst c. apply Hneg.
      * intros H.
        assert (Hu : int_unsigned (String c r) = Raise e).
        { destruct c as [[] [] [] [] [] [] [] []];
            try exact H; simpl in Hplus, Hminus; discriminate. }
        eapply int_unsigned_raises; eassumption.
Qed.

(** ** The parsing loop *)

Lemma not_sample_line (l : string) :
  is_sample_line l = false ->
  startswith l "IN:" = false /\ startswith l "MID:" = false
  /\ startswith l "OUT:" = false.
Proof.
  unfold is_sample_line. intros H.
  apply orb_false_elim in H as [H Ho].
  apply orb_false_elim in H as [Hi Hm]. auto.
Qed.

(** One turn of the loop on a sample line whose last token [int] accepts:
    the value goes to the end of the list of its stream. *)
Lemma parse_loop_sample (line : string) (rest : list string)
    (a b c : list Z) (v : Z) :
  is_sample_line (strip line) = true ->
  py_int (last_token (strip line)) = Ok v ->
  parse_loop (line :: rest) a b c =
    if startswith (strip line) "IN:" then parse_loop rest (a ++ [v]) b c
    else if startswith (strip line) "MID:" then parse_loop rest a (b ++ [v]) c
    else parse_loop rest a b (c ++ [v]).
Proof.
  intros Hs Hv. cbn [parse_loop].
  rewrite (last_token_value_sample _ Hs), Hv.
  destruct (sample_line_cases _ Hs)
    as [(H1 & H2 & H3)|[(H1 & H2 & H3)|(H1 & H2 & H3)]];
    rewrite ?H1, ?H2, ?H3; reflexivity.
Qed.

Lemma parse_loop_skip (line : string) (rest : list string) (a b c : list Z) :
  is_sample_line (strip line) = false ->
  parse_loop (line :: rest) a b c = parse_loop rest a b c.
Proof.
  intros Hs. cbn [parse_loop].
  destruct (not_sample_line _ Hs) as (H1 & H2 & H3).
  rewrite H1, H2, H3. reflexivity.
Qed.

Lemma parse_loop_ok (lines : list string) :
  forall a b c : list Z,
    forallb (fun l => implb (is_sample_line l) (is_ok (py_int (last_token l))))
            (map strip lines) = true ->
    exists xs ys zs,
      parse_loop lines a b c = Ok (a ++ xs, b ++ ys, c ++ zs)
      /\ map Ok xs = map (fun l => py_int (last_token l))
                         (filter (fun l => startswith l "IN:") (map strip lines))
      /\ map Ok ys = map (fun l => py_int (last_token l))
                         (filter (fun l => startswith l "MID:") (map strip lines))
      /\ map Ok zs = map (fun l => py_int (last_token l))
                         (filter (fun l => startswith l "OUT:") (map strip lines)).
Proof.
  induction lines as [|line rest IH]; intros a b c Hwf.
  - exists [], [], []. rewrite !app_nil_r. repeat split; reflexivity.
  - cbn [map forallb] in Hwf. apply andb_prop in Hwf as [Hline Hrest].
    cbn [map filter].
    destruct (is_sample_line (strip line)) eqn:Hs.
    + destruct (py_int (last_token (strip line))) as [v|e] eqn:Hv;
        [|discriminate].
      rewrite (parse_loop_sample _ _ _ _ _ v Hs Hv).
      destruct (sample_line_cases _ Hs)
        as [(H1 & H2 & H3)|[(H1 & H2 & H3)|(H1 & H2 & H3)]];
        rewrite ?H1, ?H2, ?H3.
      * destruct (IH (a ++ [v]) b c Hrest) as (xs & ys & zs & -> & Hx & Hy & Hz).
        exists (v :: xs), ys, zs. rewrite <- app_assoc. cbn [map app].
        rewrite Hv, Hx. auto.
      * destruct (IH a (b ++ [v]) c Hrest) as (xs & ys & zs & -> & Hx & Hy & Hz).
        exists xs, (v :: ys), zs. rewrite <- app_assoc. cbn [map app].
        rewrite Hv, Hy. auto.
      * destruct (IH a b (c ++ [v]) Hrest) as (xs & ys & zs & -> & Hx & Hy & Hz).
        exists xs, ys, (v :: zs). rewrite <- app_assoc. cbn [map app].
        rewrite Hv, Hz. auto.
    + rewrite (parse_loop_skip _ _ _ _ _ Hs).
      destruct (not_sample_line _ Hs) as (H1 & H2 & H3).
      rewrite H1, H2, H3. apply IH; assumption.
Qed.

Lemma parse_loop_raises (lines : list string) :
  forall a b c : list Z,
    existsb malformed_line (map strip lines) = true ->
    parse_loop lines a b c = Raise ValueError.
Proof.
  induction lines as [|line rest IH]; intros a b c Hbad.
  - discriminate.
  - cbn [map existsb] in Hbad. unfold malformed_line at 1 in Hbad.
    destruct (is_sample_line (strip line)) eqn:Hs.
    + destruct (py_int (last_token (strip line))) as [v|e] eqn:Hv.
      * rewrite (parse_loop_sample _ _ _ _ _ v Hs Hv).
        simpl in Hbad.
        destruct (startswith (strip line) "IN:");
          [|destruct (startswith (strip line) "MID:")]; apply IH; assumption.
      * pose proof (py_int_raises _ _ Hv) as ->.
        cbn [parse_loop]. rewrite (last_token_value_sample _ Hs), Hv.
        destruct (sample_line_cases _ Hs)
          as [(H1 & H2 & H3)|[(H1 & H2 & H3)|(H1 & H2 & H3)]];
          rewrite ?H1, ?H2, ?H3; reflexivity.
    + rewrite (parse_loop_skip _ _ _ _ _ Hs). simpl in Hbad.
      apply IH; assumption.
Qed.

(** The pointwise reading of an equation between mapped lists. *)
Lemma map_Ok_Forall2 (f : string -> result Z) (vs : list Z) (ls : list string) :
  map Ok vs = map f ls -> Forall2 (fun v l => f l = Ok v) vs ls.
Proof.
  revert ls. induction vs as [|v vs IH]; intros [|l ls] H;
    try discriminate; constructor.
  - injection H as H _. symmetry; assumption.
  - apply IH. injection H as _ H. assumption.
Qed.

Lemma Forall2_nth_error {A B : Type} (P : A -> B -> Prop)
    (xs : list A) (ys : list B) :
  Forall2 P xs ys ->
  forall n y, nth_error ys n = Some y ->
              exists x, nth_error xs n = Some x /\ P x y.
Proof.
  induction 1 as [|x y xs ys Hxy _ IH]; intros [|n] y' Hn;
    try discriminate.
  - injection Hn as <-. exists x. split; [reflexivity|assumption].
  - apply IH. assumption.
Qed.

(** ** Running [parse_file] and [main] *)

Lemma well_formed_or_malformed (ls : list string) :
  forallb (fun l => implb (is_sample_line l) (is_ok (py_int (last_token l))))
          ls = true
  \/ existsb malformed_line ls = true.
Proof.
  induction ls as [|l ls [IH|IH]]; cbn [forallb existsb].
  - left; reflexivity.
  - unfold malformed_line.
    destruct (is_sample_line l), (is_ok (py_int (last_token l)));
      simpl; auto.
  - right. rewrite IH. apply orb_true_r.
Qed.

(** The loop returns, or raises [ValueError]; it raises nothing else. *)
Lemma parse_loop_cases (lines : list string) (a b c : list Z) :
  (exists s, parse_loop lines a b c = Ok s)
  \/ parse_loop lines a b c = Raise ValueError.
Proof.
  destruct (well_formed_or_malformed (map strip lines)) as [H|H].
  - left. destruct (parse_loop_ok lines a b c H) as (xs & ys & zs & -> & _).
    eexists; reflexivity.
  - right. apply parse_loop_raises; assumption.
Qed.

Lemma parse_file_found (fs : filesystem) (filename text : string) :
  fs filename = Some text ->
  parse_file fs filename =
    ([Stdout ("Reading " ++ filename ++ "...")],
     parse_loop (readlines text) [] [] []).
Proof.
  intros Hfs. unfold parse_file, open_read. rewrite Hfs.
  unfold bind, print, emit, ret, lift, try_except_FileNotFoundError.
  destruct (parse_loop_cases (readlines text) [] [] []) as [[s ->]| ->];
    reflexivity.
Qed.

Lemma parse_file_missing (fs : filesystem) (filename : string) :
  fs filename = None ->
  parse_file fs filename =
    ([Stdout ("Reading " ++ filename ++ "...");
      Stdout ("Error: Could not find " ++ filename
             ++ ". Run the simulation first.")],
     Raise (SystemExit None)).
Proof.
  intros Hfs. unfold parse_file, open_read. rewrite Hfs. reflexivity.
Qed.

(** [main] once [parse_file] has raised: nothing more happens. *)
Lemma main_parse_raises (fs : filesystem) (t : list event) (e : exn) :
  parse_file fs FILENAME = (t, Raise e) -> main fs = (t, Raise e).
Proof. intros H. unfold main. rewrite H. reflexivity. Qed.

(** [main] once [parse_file] has returned with an empty input stream. *)
Lemma main_gate_closed (fs : filesystem) (t : list event)
    (s_mid_raw s_out_raw : list Z) :
  parse_file fs FILENAME = (t, Ok ([], s_mid_raw, s_out_raw)) ->
  main fs = (t ++ [Stdout (samples_read_line ([], s_mid_raw, s_out_raw))], Ok tt).
Proof. intros H. unfold main. rewrite H. reflexivity. Qed.

(** [main] once [parse_file] has returned with a non-empty input stream:
    the two prints, the time-domain figure on the truncated normalised
    streams, then the frequency-domain plotter on the whole normalised
    streams, and the display if that plotter returned. *)
Lemma main_gate_open (fs : filesystem) (t : list event)
    (s_in_raw s_mid_raw s_out_raw : list Z) :
  parse_file fs FILENAME = (t, Ok (s_in_raw, s_mid_raw, s_out_raw)) ->
  s_in_raw <> [] ->
  let s_in := true_divide s_in_raw NORM_FACTOR in
  let s_mid := true_divide s_mid_raw NORM_FACTOR in
  let s_out := true_divide s_out_raw NORM_FACTOR in
  main fs =
    (t ++ [Stdout (samples_read_line (s_in_raw, s_mid_raw, s_out_raw));
           Stdout "Normalizing all signals by Fixed Factor: 30000.0";
           TimeFigure (firstn 200 s_in) (firstn 400 s_mid) (firstn 150 s_out)]
       ++ fst (plot_frequency_domain s_in s_mid s_out)
       ++ (if is_ok (snd (plot_frequency_domain s_in s_mid s_out))
           then [PltShow] else []),
     snd (plot_frequency_domain s_in s_mid s_out)).
Proof.
  intros H Hne. cbv zeta. unfold main. rewrite H.
  destruct s_in_raw as [|x xs]; [congruence|].
  cbn [bind length Nat.ltb Nat.leb print emit plot_time_domain].
  set (p := plot_frequency_domain _ _ _).
  destruct p as [tf [[]|e]]; cbn [fst snd is_ok app];
    rewrite ?app_nil_r; reflexivity.
Qed.

(** ** The array operations *)

Local Open Scope R_scope.

Lemma FS_IN_pos : 0 < FS_IN.
Proof. unfold FS_IN. lra. Qed.

Lemma FS_MID_pos : 0 < FS_MID.
Proof. unfold FS_MID, FS_IN, L. lra. Qed.

Lemma FS_OUT_pos : 0 < FS_OUT.
Proof. unfold FS_OUT, FS_MID, FS_IN, L, M. lra. Qed.


Lemma length_arange (lo hi : Z) : length (arange lo hi) = Z.to_nat (hi - lo).
Proof. unfold arange. rewrite length_map, length_seq. reflexivity. Qed.

Lemma nth_arange (lo hi : Z) (k : nat) (d : Z) :
  (k < Z.to_nat (hi - lo))%nat -> nth k (arange lo hi) d = (lo + Z.of_nat k)%Z.
Proof.
  intros Hk. unfold arange.
  rewrite (nth_indep _ d (lo + Z.of_nat 0)%Z)
    by (rewrite length_map, length_seq; exact Hk).
  rewrite (map_nth (fun i => (lo + Z.of_nat i)%Z)).
  rewrite seq_nth by exact Hk. reflexivity.
Qed.

Lemma length_np_hamming (m : nat) : length (np_hamming m) = m.
Proof.
  unfold np_hamming.
  destruct (m <? 1)%nat eqn:H0.
  - apply Nat.ltb_lt in H0. simpl. lia.
  - destruct (m =? 1)%nat eqn:H1.
    + apply Nat.eqb_eq in H1. subst. reflexivity.
    + rewrite !length_map, length_seq. reflexivity.
Qed.

Lemma length_multiply (a b : list R) :
  length (multiply a b) = Nat.min (length a) (length b).
Proof. unfold multiply. rewrite length_map, length_combine. reflexivity. Qed.

Lemma nth_multiply (a : list R) :
  forall (b : list R) (k : nat),
    (k < length a)%nat -> (k < length b)%nat ->
    nth k (multiply a b) 0 = nth k a 0 * nth k b 0.
Proof.
  induction a as [|x a IH]; intros [|y b] [|k] Ha Hb; simpl in *;
    try lia; try reflexivity.
  apply IH; lia.
Qed.

Lemma np_fft_ok (a : list R) :
  a <> [] -> np_fft a = Ok (map (dft_bin a) (seq 0 (length a))).
Proof.
  intros Ha. unfold np_fft. destruct a; [congruence|reflexivity].
Qed.

Lemma py_truediv_ok (x y : R) : y <> 0 -> py_truediv x y = Ok (x / y).
Proof.
  intros Hy. unfold py_truediv. destruct (Req_EM_T y 0); [contradiction|reflexivity].
Qed.

Lemma length_fftfreq_bins (n : nat) : (1 <= n)%nat -> length (fftfreq_bins n) = n.
Proof.
  intros Hn. unfold fftfreq_bins. cbv zeta. rewrite length_app, !length_arange.
  Z.div_mod_to_equations. lia.
Qed.

Lemma nth_fftfreq_bins (n k : nat) (d : Z) :
  (k < n / 2)%nat -> nth k (fftfreq_bins n) d = Z.of_nat k.
Proof.
  intros Hk. unfold fftfreq_bins. cbv zeta.
  assert (Hdiv : (Z.of_nat (n / 2) = Z.of_nat n / 2)%Z)
    by (rewrite Nat2Z.inj_div; reflexivity).
  assert (Hlt : (k < Z.to_nat ((Z.of_nat n - 1) / 2 + 1 - 0))%nat)
    by (Z.div_mod_to_equations; lia).
  rewrite app_nth1 by (rewrite length_arange; exact Hlt).
  rewrite nth_arange by exact Hlt. lia.
Qed.

Lemma np_fftfreq_ok (n : nat) (d : R) :
  (1 <= n)%nat -> d <> 0 ->
  np_fftfreq n d = Ok (map (fun i => IZR i * (1 / (INR n * d))) (fftfreq_bins n)).
Proof.
  intros Hn Hd. unfold np_fftfreq.
  rewrite py_truediv_ok; [reflexivity|].
  apply Rmult_integral_contrapositive. split; [|exact Hd].
  apply not_0_INR. lia.
Qed.

(** ** get_fft_db *)

(** An empty signal is refused by the FFT, whatever the sample rate. *)
Lemma get_fft_db_empty (fs : R) : get_fft_db [] fs = Raise ValueError.
Proof. reflexivity. Qed.

(** What [get_fft_db] returns on a signal of at least one sample. *)
Lemma get_fft_db_ok (sig : list R) (fs : R) :
  sig <> [] -> fs <> 0 ->
  let n := length sig in
  let sig_windowed := multiply sig (np_hamming n) in
  get_fft_db sig fs =
    Ok (firstn (n / 2)
          (map (fun i => IZR i * (1 / (INR n * (1 / fs)))) (fftfreq_bins n)),
        map (fun z => 20 * np_log10 (np_abs z + 1e-12))
          (firstn (n / 2) (map (dft_bin sig_windowed) (seq 0 n)))).
Proof.
  intros Hsig Hfs n sig_windowed. unfold get_fft_db.
  assert (Hn : (1 <= n)%nat) by (subst n; destruct sig; simpl; [congruence|lia]).
  assert (Hlen : length sig_windowed = n).
  { subst sig_windowed. rewrite length_multiply, length_np_hamming. subst n. lia. }
  fold n. fold sig_windowed.
  rewrite np_fft_ok by (intros E; rewrite E in Hlen; simpl in Hlen; lia).
  rewrite Hlen. cbn [rbind].
  rewrite py_truediv_ok by exact Hfs. cbn [rbind].
  rewrite np_fftfreq_ok; [reflexivity|exact Hn|].
  unfold Rdiv. rewrite Rmult_1_l. apply Rinv_neq_0_compat. exact Hfs.
Qed.

Lemma get_fft_db_cases (sig : list R) (fs : R) :
  fs <> 0 ->
  (exists freq mag, get_fft_db sig fs = Ok (freq, mag)
                    /\ length freq = (length sig / 2)%nat
                    /\ length mag = (length sig / 2)%nat)
  \/ (sig = [] /\ get_fft_db sig fs = Raise ValueError).
Proof.
  intros Hfs. destruct sig as [|x sig].
  - right. split; reflexivity.
  - left. assert (Hne : x :: sig <> []) by discriminate.
    pose proof (get_fft_db_ok (x :: sig) fs Hne Hfs) as H. cbv zeta in H.
    do 2 eexists. split; [exact H|].
    set (n := length (x :: sig)) in *.
    assert (Hn : (1 <= n)%nat) by (subst n; simpl; lia).
    rewrite !length_firstn, !length_map, !length_firstn, !length_map, length_seq,
      length_fftfreq_bins by exact Hn.
    assert ((n / 2 <= n)%nat) by (apply Nat.Div0.div_le_upper_bound; lia).
    lia.
Qed.

(** ** np.max *)

Lemma fold_left_Rmax_spec (xs : list R) :
  forall x : R,
    In (fold_left Rmax xs x) (x :: xs)
    /\ Forall (fun y => y <= fold_left Rmax xs x) (x :: xs).
Proof.
  induction xs as [|y ys IH]; intros x.
  - simpl. split; [left; reflexivity|]. constructor; [lra|constructor].
  - cbn [fold_left]. destruct (IH (Rmax x y)) as [Hin Hall].
    inversion Hall as [|? ? Hxy Hys]; subst.
    split.
    + destruct Hin as [Hin|Hin].
      * rewrite <- Hin. unfold Rmax. destruct (Rle_dec x y); simpl; auto.
      * right; right; assumption.
    + constructor; [|constructor]; try assumption.
      * eapply Rle_trans; [apply Rmax_l|exact Hxy].
      * eapply Rle_trans; [apply Rmax_r|exact Hxy].
Qed.

(** On a non-empty array [np.max] returns an element that bounds all the
    others. *)
Lemma np_max_spec (a : list R) :
  a <> [] ->
  exists m, np_max a = Ok m /\ In m a /\ Forall (fun y => y <= m) a.
Proof.
  intros Ha. destruct a as [|x xs]; [congruence|].
  exists (fold_left Rmax xs x). split; [reflexivity|].
  apply fold_left_Rmax_spec.
Qed.

(** Subtracting the maximum of an array from each of its elements leaves
    an array whose maximum is zero. *)
Lemma np_max_shifted (a : list R) (m : R) :
  np_max a = Ok m -> np_max (map (fun y => y - m) a) = Ok 0.
Proof.
  intros Hm.
  assert (Ha : a <> []) by (intros ->; discriminate).
  destruct (np_max_spec a Ha) as (m' & Hm' & Hin & Hall).
  assert (m' = m) by congruence. subst m'.
  assert (Hb : map (fun y => y - m) a <> [])
    by (destruct a; [congruence|discriminate]).
  destruct (np_max_spec _ Hb) as (z & -> & Hzin & Hzall).
  f_equal.
  apply in_map_iff in Hzin as (y & <- & Hy).
  rewrite Forall_forall in Hall, Hzall.
  specialize (Hall y Hy).
  specialize (Hzall (m - m) (in_map (fun y => y - m) a m Hin)).
  lra.
Qed.

(** ** plot_frequency_domain *)

(** The plotter once its three spectra and the reference level are
    there. *)
Lemma plot_frequency_domain_ok (sig_in sig_mid sig_out : list R)
    (f_in mag_in f_mid mag_mid f_out mag_out : list R) (ref_level : R) :
  get_fft_db sig_in FS_IN = Ok (f_in, mag_in) ->
  get_fft_db sig_mid FS_MID = Ok (f_mid, mag_mid) ->
  get_fft_db sig_out FS_OUT = Ok (f_out, mag_out) ->
  np_max mag_in = Ok ref_level ->
  plot_frequency_domain sig_in sig_mid sig_out =
    ([FreqFigure (spectrum_row f_in mag_in ref_level)
                 (spectrum_row f_mid mag_mid ref_level)
                 (spectrum_row f_out mag_out ref_level)], Ok tt).
Proof.
  intros Hin Hmid Hout Hmax. unfold plot_frequency_domain.
  rewrite Hin, Hmid, Hout. cbn [lift bind app]. rewrite Hmax. reflexivity.
Qed.

Lemma FS_IN_nonzero : FS_IN <> 0.
Proof. pose proof FS_IN_pos. lra. Qed.

Lemma FS_MID_nonzero : FS_MID <> 0.
Proof. pose proof FS_MID_pos. lra. Qed.

Lemma FS_OUT_nonzero : FS_OUT <> 0.
Proof. pose proof FS_OUT_pos. lra. Qed.

(** The plotter raises [ValueError], before drawing anything, as soon as
    one spectrum cannot be computed or the input spectrum is empty. *)
Lemma plot_frequency_domain_raises (sig_in sig_mid sig_out : list R) :
  (length sig_in < 2)%nat \/ sig_mid = [] \/ sig_out = [] ->
  plot_frequency_domain sig_in sig_mid sig_out = ([], Raise ValueError).
Proof.
  intros H. unfold plot_frequency_domain.
  destruct (get_fft_db_cases sig_in FS_IN FS_IN_nonzero)
    as [(f_in & mag_in & -> & _ & Hl_in)|[_ ->]]; [|reflexivity].
  destruct (get_fft_db_cases sig_mid FS_MID FS_MID_nonzero)
    as [(f_mid & mag_mid & Hmid & _ & _)|[_ Hmid]]; rewrite Hmid;
    [|reflexivity].
  destruct (get_fft_db_cases sig_out FS_OUT FS_OUT_nonzero)
    as [(f_out & mag_out & Hout & _ & _)|[_ Hout]]; rewrite Hout;
    [|reflexivity].
  cbn [lift bind app].
  destruct H as [H|[H|H]].
  - assert (Hz : (length sig_in / 2 = 0)%nat).
    { destruct sig_in as [|x [|y r]]; simpl in H; try lia; reflexivity. }
    rewrite Hz in Hl_in. destruct mag_in; [reflexivity|discriminate].
  - subst sig_mid. rewrite get_fft_db_empty in Hmid. discriminate.
  - subst sig_out. rewrite get_fft_db_empty in Hout. discriminate.
Qed.

(** * The parser *)

Local Open Scope nat_scope.

Lemma stream_reads_of_map (p text : string) (data : list Z) :
  map Ok data = map (fun l => py_int (last_token l)) (prefixed_lines p text) ->
  stream_reads p text data.
Proof. apply map_Ok_Forall2. Qed.

Lemma stream_reads_length (p text : string) (data : list Z) :
  stream_reads p text data -> length data = length (prefixed_lines p text).
Proof. apply Forall2_length. Qed.

Lemma stream_reads_nth (p text : string) (data : list Z) :
  stream_reads p text data ->
  forall n l, nth_error (prefixed_lines p text) n = Some l ->
              exists v, nth_error data n = Some v /\ py_int (last_token l) = Ok v.
Proof. intros H n l Hn. exact (Forall2_nth_error _ _ _ H n l Hn). Qed.

Lemma startswith_sample_line (l p : string) :
  In p ["IN:"; "MID:"; "OUT:"]%string ->
  startswith l p = true -> is_sample_line l = true.
Proof.
  unfold is_sample_line. cbn [In].
  intros [<-|[<-|[<-|[]]]] ->; rewrite ?orb_true_r; reflexivity.
Qed.

(** In a text whose samples fit int64, so do those of each stream. *)
Lemma stream_reads_fits_int64 (p text : string) (data : list Z) :
  In p ["IN:"; "MID:"; "OUT:"]%string ->
  samples_fit_int64 text = true ->
  stream_reads p text data -> fits_int64 data = true.
Proof.
  intros Hp Hfit Hr. unfold stream_reads in Hr.
  assert (Hls : Forall (fun l => In l (stripped_lines text)
                                 /\ startswith l p = true)
                       (prefixed_lines p text)).
  { apply Forall_forall. intros l Hl. unfold prefixed_lines in Hl.
    apply filter_In in Hl. exact Hl. }
  unfold fits_int64.
  induction Hr as [|v l data ls Hv _ IH]; [reflexivity|].
  inversion Hls as [|? ? [Hin Hl] Hls']; subst.
  cbn [forallb]. rewrite (IH Hls'), andb_true_r.
  unfold samples_fit_int64 in Hfit.
  rewrite forallb_forall in Hfit. specialize (Hfit l Hin).
  rewrite (startswith_sample_line l p Hp Hl), Hv in Hfit. exact Hfit.
Qed.

(** C1, as stated, fails: on a file whose only line is [IN: abc] the parser
    returns no sequences at all, it raises. *)
Lemma parse_file_malformed_returns_nothing :
  ~ (exists data_in data_mid data_out,
        snd (parse_file (fs_with (unlines ["IN: abc"%string])) FILENAME)
        = Ok (data_in, data_mid, data_out)).
Proof.
  intros (data_in & data_mid & data_out & H).
  vm_compute in H. discriminate.
Qed.

(** C1 (amended): for every existing file in which the last token of each
    sample line is an integer that [int] accepts and that fits a signed
    64-bit integer, [parse_file] prints its one progress line and returns
    three int64 arrays; each of them holds, in file order, the integers
    read from the last tokens of the stripped lines that begin with its
    prefix ([IN:], [MID:], [OUT:]) and nothing else; so its length is the
    number of such lines and its n-th sample comes from the n-th such
    line. *)
Theorem parse_file_well_formed (fs : filesystem) (filename text : string) :
  fs filename = Some text ->
  well_formed text = true ->
  samples_fit_int64 text = true ->
  exists data_in data_mid data_out,
    parse_file fs filename
    = ([Stdout ("Reading " ++ filename ++ "...")],
       Ok (data_in, data_mid, data_out))
    /\ forall p data,
         In (p, data) [("IN:"%string, data_in); ("MID:"%string, data_mid);
                       ("OUT:"%string, data_out)] ->
         fits_int64 data = true
         /\ stream_reads p text data
         /\ length data = length (prefixed_lines p text)
         /\ forall n l, nth_error (prefixed_lines p text) n = Some l ->
                        exists v, nth_error data n = Some v
                                  /\ py_int (last_token l) = Ok v.
Proof.
  intros Hfs Hwf Hfit. rewrite (parse_file_found _ _ _ Hfs).
  destruct (parse_loop_ok (readlines text) [] [] [] Hwf)
    as (xs & ys & zs & -> & Hx & Hy & Hz).
  exists xs, ys, zs. split; [reflexivity|].
  intros p data Hin.
  assert (Hr : stream_reads p text data /\ In p ["IN:"; "MID:"; "OUT:"]%string).
  { cbn [In] in Hin.
    destruct Hin as [E|[E|[E|[]]]]; injection E as <- <-;
      (split; [apply stream_reads_of_map; assumption|cbn [In]; auto]). }
  destruct Hr as [Hr Hp].
  split; [exact (stream_reads_fits_int64 p text data Hp Hfit Hr)|].
  split; [exact Hr|]. split.
  - apply stream_reads_length; exact Hr.
  - apply stream_reads_nth; exact Hr.
Qed.

(** * Missing file *)

(** C2, as stated, fails: with no file at all the process ends with exit
    status 0, not with a non-zero one. *)
Lemma missing_file_exit_status_is_zero :
  ~ (fs_empty FILENAME = None -> exit_status (snd (main fs_empty)) <> 0%Z).
Proof.
  intros H. apply H; reflexivity.
Qed.

(** C2 (amended): when the input file does not exist, [parse_file] prints
    the progress line and then a diagnostic line that names the file, and
    ends the process at once through [exit()] called without a status:
    [SystemExit] with no code, that is exit status 0 and no traceback.
    Nothing is plotted. *)
Theorem main_missing_file_exits (fs : filesystem) :
  fs FILENAME = None ->
  (forall filename,
      fs filename = None ->
      parse_file fs filename
      = ([Stdout ("Reading " ++ filename ++ "...");
          Stdout ("Error: Could not find " ++ filename
                 ++ ". Run the simulation first.")],
         Raise (SystemExit None)))
  /\ main fs
     = ([Stdout "Reading resampler_output.txt...";
         Stdout "Error: Could not find resampler_output.txt. Run the simulation first."],
        Raise (SystemExit None))
  /\ exit_status (snd (main fs)) = 0%Z
  /\ traceback_printed (snd (main fs)) = false
  /\ existsb is_plot_event (fst (main fs)) = false.
Proof.
  intros Hfs. split; [intros filename; apply parse_file_missing|].
  rewrite (main_parse_raises fs _ _ (parse_file_missing fs FILENAME Hfs)).
  repeat split; reflexivity.
Qed.

(** * The gate on the input stream *)

Lemma parse_file_trace (fs : filesystem) (filename : string)
    (t : list event) (s : streams) :
  parse_file fs filename = (t, Ok s) ->
  t = [Stdout ("Reading " ++ filename ++ "...")].
Proof.
  intros H. destruct (fs filename) as [text|] eqn:Hfs.
  - rewrite (parse_file_found _ _ _ Hfs) in H. congruence.
  - rewrite (parse_file_missing _ _ Hfs) in H. discriminate.
Qed.

(** C3: whenever the parsed input stream is empty, whatever the other two
    streams hold, [main] prints the line with the three sample counts and
    returns: no normalisation message, no figure, no display, no error,
    exit status 0. For an empty file the three parsed streams are empty and
    the counts printed are 0, 0, 0. *)
Theorem main_empty_input_skips_plotting (fs : filesystem) (t : list event)
    (s_mid_raw s_out_raw : list Z) :
  parse_file fs FILENAME = (t, Ok ([], s_mid_raw, s_out_raw)) ->
  (main fs
   = ([Stdout "Reading resampler_output.txt...";
       Stdout ("Samples Read -> In: 0, Mid: "
              ++ string_of_nat (length s_mid_raw)
              ++ ", Out: " ++ string_of_nat (length s_out_raw))],
      Ok tt)
   /\ existsb is_plot_event (fst (main fs)) = false
   /\ exit_status (snd (main fs)) = 0%Z
   /\ traceback_printed (snd (main fs)) = false)
  /\ parse_file (fs_with "") FILENAME
     = ([Stdout "Reading resampler_output.txt..."], Ok ([], [], []))
  /\ main (fs_with "")
     = ([Stdout "Reading resampler_output.txt...";
         Stdout "Samples Read -> In: 0, Mid: 0, Out: 0"],
        Ok tt).
Proof.
  intros H. split; [|split; reflexivity].
  rewrite (main_gate_closed _ _ _ _ H).
  rewrite (parse_file_trace _ _ _ _ H).
  repeat split; reflexivity.
Qed.

(** * Malformed numeric token *)

(** C7: if some stripped line begins with [IN:], [MID:] or [OUT:] and its
    last token is not an integer that [int] accepts, the [ValueError] that
    [int] raises is not caught by the handler for the missing file: it
    leaves [parse_file] and [main], nothing is printed after the progress
    line and nothing is plotted, and the process ends with a traceback and
    exit status 1. *)
Theorem main_malformed_token_propagates
    (fs : filesystem) (text : string) (l : string) :
  fs FILENAME = Some text ->
  In l (stripped_lines text) ->
  is_sample_line l = true ->
  (forall v, py_int (last_token l) <> Ok v) ->
  parse_file fs FILENAME
  = ([Stdout "Reading resampler_output.txt..."], Raise ValueError)
  /\ main fs = ([Stdout "Reading resampler_output.txt..."], Raise ValueError)
  /\ run_script fs = ([Stdout "Reading resampler_output.txt..."], 1%Z, true).
Proof.
  intros Hfs Hin Hs Hbad.
  assert (Hex : existsb malformed_line (stripped_lines text) = true).
  { apply existsb_exists. exists l. split; [exact Hin|].
    unfold malformed_line. rewrite Hs.
    destruct (py_int (last_token l)) as [v|e]; [|reflexivity].
    exfalso. apply (Hbad v). reflexivity. }
  assert (Hp : parse_file fs FILENAME
               = ([Stdout "Reading resampler_output.txt..."], Raise ValueError)).
  { rewrite (parse_file_found _ _ _ Hfs).
    rewrite (parse_loop_raises _ _ _ _ Hex). reflexivity. }
  split; [exact Hp|].
  unfold run_script. rewrite (main_parse_raises _ _ _ Hp).
  split; reflexivity.
Qed.

(** * The spectrum of one stream *)

Local Open Scope R_scope.

Lemma nth_map_default {A B : Type} (f : A -> B) (l : list A) (k : nat)
    (d : A) (d' : B) :
  (k < length l)%nat -> nth k (map f l) d' = f (nth k l d).
Proof.
  intros Hk. rewrite (nth_indep _ d' (f d)) by (rewrite length_map; exact Hk).
  apply map_nth.
Qed.

(** For two points or more, the window is the textbook Hamming window
    [0.54 - 0.46*cos(2*pi*k/(M-1))]. *)
Lemma nth_np_hamming (m k : nat) :
  (2 <= m)%nat -> (k < m)%nat ->
  nth k (np_hamming m) 0 = 0.54 - 0.46 * cos (2 * PI * INR k / INR (m - 1)).
Proof.
  intros Hm Hk. unfold np_hamming.
  destruct (Nat.ltb_spec m 1) as [H|_]; [lia|].
  destruct (Nat.eqb_spec m 1) as [H|_]; [lia|].
  rewrite (nth_map_default _ _ _ 0%Z) by (rewrite length_map, length_seq; exact Hk).
  rewrite (nth_map_default _ _ _ 0%nat) by (rewrite length_seq; exact Hk).
  rewrite seq_nth by exact Hk. cbn [Nat.add].
  assert (Hd : IZR (Z.of_nat m - 1) = INR (m - 1)).
  { rewrite minus_INR by lia. rewrite minus_IZR, <- INR_IZR_INZ. reflexivity. }
  assert (Hpos : 0 < INR (m - 1)) by (apply lt_0_INR; lia).
  assert (Hn : IZR (1 - Z.of_nat m + 2 * Z.of_nat k) = 2 * INR k - INR (m - 1)).
  { rewrite plus_IZR, minus_IZR, mult_IZR, <- !INR_IZR_INZ.
    rewrite minus_INR by lia. simpl. lra. }
  rewrite Hd, Hn.
  replace (PI * (2 * INR k - INR (m - 1)) / INR (m - 1))
    with (2 * PI * INR k / INR (m - 1) - PI) by (field; lra).
  rewrite cos_minus, cos_PI, sin_PI. lra.
Qed.

Lemma half_le (n : nat) : (n / 2 <= n)%nat.
Proof. apply Nat.Div0.div_le_upper_bound. lia. Qed.

(** C4, as stated, fails for the empty signal: the FFT refuses it, so no
    arrays are returned. *)
Lemma get_fft_db_empty_signal_returns_nothing :
  ~ (exists fft_freq mag,
        get_fft_db [] FS_MID = Ok (fft_freq, mag)
        /\ length fft_freq = (length (@nil R) / 2)%nat
        /\ length mag = (length (@nil R) / 2)%nat).
Proof.
  intros (fft_freq & mag & H & _). rewrite get_fft_db_empty in H. discriminate.
Qed.

(** C4 (amended): for every signal of length [n >= 1] and every non-zero
    sample rate [fs], [get_fft_db] multiplies the signal point by point by
    the Hamming window of length [n] ([1.0] for one point, otherwise
    [0.54 - 0.46*cos(2*pi*k/(n-1))]), takes the discrete Fourier transform
    of the product, and returns the first [n//2] bins of the frequency
    array and of the magnitude array: both have length exactly [n//2], bin
    [k] has frequency [k*fs/n] (not negative when [fs] is positive) and
    magnitude [20*log10(|X[k]| + 1e-12)]. *)
Theorem get_fft_db_half_spectrum (sig : list R) (fs : R) :
  sig <> [] ->
  fs <> 0 ->
  let n := length sig in
  let window := np_hamming n in
  let sig_windowed := multiply sig window in
  length window = n
  /\ (n = 1%nat -> window = [1])
  /\ (forall k, (2 <= n)%nat -> (k < n)%nat ->
                nth k window 0
                = 0.54 - 0.46 * cos (2 * PI * INR k / INR (n - 1)))
  /\ (forall k, (k < n)%nat ->
                nth k sig_windowed 0 = nth k sig 0 * nth k window 0)
  /\ exists fft_freq mag,
       get_fft_db sig fs = Ok (fft_freq, mag)
       /\ length fft_freq = (n / 2)%nat
       /\ length mag = (n / 2)%nat
       /\ forall k, (k < n / 2)%nat ->
            nth k fft_freq 0 = INR k * fs / INR n
            /\ (0 < fs -> 0 <= nth k fft_freq 0)
            /\ nth k mag 0
               = 20 * np_log10 (np_abs (dft_bin sig_windowed k) + 1e-12).
Proof.
  intros Hsig Hfs n window sig_windowed.
  assert (Hn : (1 <= n)%nat) by (subst n; destruct sig; simpl; [congruence|lia]).
  assert (Hw : length window = n) by apply length_np_hamming.
  split; [exact Hw|]. split.
  { intros H1. subst window. rewrite H1. reflexivity. }
  split.
  { intros k H2 Hk. apply nth_np_hamming; assumption. }
  split.
  { intros k Hk. apply nth_multiply; [exact Hk|rewrite Hw; exact Hk]. }
  pose proof (get_fft_db_ok sig fs Hsig Hfs) as Hok. cbv zeta in Hok.
  fold n in Hok. fold window in Hok. fold sig_windowed in Hok.
  pose proof (half_le n) as Hhalf.
  do 2 eexists. split; [exact Hok|].
  split; [|split].
  - rewrite length_firstn, length_map, length_fftfreq_bins by exact Hn. lia.
  - rewrite length_map, length_firstn, length_map, length_seq. lia.
  - intros k Hk.
    assert (Hkb : (k <? n / 2)%nat = true) by (apply Nat.ltb_lt; exact Hk).
    assert (Hfreq : nth k (firstn (n / 2)
                             (map (fun i => IZR i * (1 / (INR n * (1 / fs))))
                                  (fftfreq_bins n))) 0
                    = INR k * fs / INR n).
    { rewrite nth_firstn, Hkb.
      rewrite (nth_map_default _ _ _ 0%Z)
        by (rewrite length_fftfreq_bins by exact Hn; lia).
      rewrite nth_fftfreq_bins by exact Hk.
      rewrite <- INR_IZR_INZ.
      assert (INR n <> 0) by (apply not_0_INR; lia).
      field. split; assumption. }
    split; [exact Hfreq|]. split.
    + intros Hpos. rewrite Hfreq.
      assert (0 < INR n) by (apply lt_0_INR; lia).
      pose proof (pos_INR k).
      apply Rmult_le_pos; [apply Rmult_le_pos; lra|].
      apply Rlt_le, Rinv_0_lt_compat; assumption.
    + rewrite (nth_map_default _ _ _ (dft_bin sig_windowed 0))
        by (rewrite length_firstn, length_map, length_seq; lia).
      rewrite nth_firstn, Hkb.
      rewrite (nth_map_default _ _ _ 0%nat) by (rewrite length_seq; lia).
      rewrite seq_nth by lia. reflexivity.
Qed.

(** * The shared reference level *)

Lemma get_fft_db_returns (sig : list R) (fs : R) :
  sig <> [] -> fs <> 0 ->
  exists fft_freq mag,
    get_fft_db sig fs = Ok (fft_freq, mag)
    /\ length fft_freq = (length sig / 2)%nat
    /\ length mag = (length sig / 2)%nat.
Proof.
  intros Hsig Hfs.
  destruct (get_fft_db_cases sig fs Hfs) as [H|[H _]]; [exact H|contradiction].
Qed.

(** C5: on an input stream of at least two samples and non-empty
    intermediate and output streams, [plot_frequency_domain] computes one
    reference level, the maximum of the input spectrum's magnitudes (an
    element of that array that bounds all the others), and draws each of
    the three spectra with that same level subtracted from every
    magnitude. After the subtraction the maximum of the input's relative
    magnitudes is 0, and the difference between a magnitude of the
    intermediate or output stream and one of the input is what it was
    before. *)
Theorem plot_frequency_domain_reference_level
    (sig_in sig_mid sig_out : list R) :
  (2 <= length sig_in)%nat ->
  sig_mid <> [] ->
  sig_out <> [] ->
  exists f_in mag_in f_mid mag_mid f_out mag_out ref_level,
    get_fft_db sig_in FS_IN = Ok (f_in, mag_in)
    /\ get_fft_db sig_mid FS_MID = Ok (f_mid, mag_mid)
    /\ get_fft_db sig_out FS_OUT = Ok (f_out, mag_out)
    /\ np_max mag_in = Ok ref_level
    /\ In ref_level mag_in
    /\ Forall (fun m => m <= ref_level) mag_in
    /\ plot_frequency_domain sig_in sig_mid sig_out
       = ([FreqFigure
             (map (fun x => x / 1e6) f_in, map (fun m => m - ref_level) mag_in)
             (map (fun x => x / 1e6) f_mid, map (fun m => m - ref_level) mag_mid)
             (map (fun x => x / 1e6) f_out, map (fun m => m - ref_level) mag_out)],
          Ok tt)
    /\ np_max (map (fun m => m - ref_level) mag_in) = Ok 0
    /\ forall mag, In mag [mag_mid; mag_out] ->
         forall i j d,
           nth i (map (fun m => m - ref_level) mag) (d - ref_level)
           - nth j (map (fun m => m - ref_level) mag_in) (d - ref_level)
           = nth i mag d - nth j mag_in d.
Proof.
  intros Hin Hmid Hout.
  assert (Hne : sig_in <> []) by (intros ->; simpl in Hin; lia).
  destruct (get_fft_db_returns sig_in FS_IN Hne FS_IN_nonzero)
    as (f_in & mag_in & Hgi & _ & Hli).
  destruct (get_fft_db_returns sig_mid FS_MID Hmid FS_MID_nonzero)
    as (f_mid & mag_mid & Hgm & _ & _).
  destruct (get_fft_db_returns sig_out FS_OUT Hout FS_OUT_nonzero)
    as (f_out & mag_out & Hgo & _ & _).
  assert (Hmag : mag_in <> []).
  { intros ->. cbn [length] in Hli.
    assert (1 <= length sig_in / 2)%nat
      by (apply Nat.div_le_lower_bound; lia).
    lia. }
  destruct (np_max_spec mag_in Hmag) as (ref_level & Hmax & Hrin & Hrall).
  exists f_in, mag_in, f_mid, mag_mid, f_out, mag_out, ref_level.
  repeat (split; [assumption|]).
  split; [|split].
  - apply (plot_frequency_domain_ok _ _ _ _ _ _ _ _ _ _ Hgi Hgm Hgo Hmax).
  - apply np_max_shifted; exact Hmax.
  - intros mag _ i j d.
    rewrite !(map_nth (fun m => m - ref_level)). lra.
Qed.

(** * Normalisation *)

Local Open Scope R_scope.






(** * End to end *)

Lemma scenario_1_parsed :
  parse_file (fs_with scenario_1) FILENAME
  = ([Stdout "Reading resampler_output.txt..."],
     Ok ([15000; -15000], [30000], [0])%Z).
Proof. vm_compute. reflexivity. Qed.

(** C8: on the file made of the lines [IN: 15000], [IN: -15000],
    [MID: 30000], [OUT: 0] the parser returns in=[15000,-15000],
    mid=[30000], out=[0]; divided by the normalisation factor these are
    in=[0.5,-0.5], mid=[1.0], out=[0.0], and these are the streams of the
    time-domain figure that [main] draws. *)
Theorem end_to_end_scenario_1 :
  parse_file (fs_with scenario_1) FILENAME
  = ([Stdout "Reading resampler_output.txt..."],
     Ok ([15000; -15000], [30000], [0])%Z)
  /\ true_divide [15000; -15000]%Z NORM_FACTOR = [0.5; -0.5]
  /\ true_divide [30000]%Z NORM_FACTOR = [1.0]
  /\ true_divide [0]%Z NORM_FACTOR = [0.0]
  /\ exists rest,
       fst (main (fs_with scenario_1))
       = [Stdout "Reading resampler_output.txt...";
          Stdout "Samples Read -> In: 2, Mid: 1, Out: 1";
          Stdout "Normalizing all signals by Fixed Factor: 30000.0";
          TimeFigure [0.5; -0.5] [1.0] [0.0]] ++ rest.
Proof.
  assert (Hin : true_divide [15000; -15000]%Z NORM_FACTOR = [0.5; -0.5]).
  { unfold true_divide, NORM_FACTOR. cbn [map]. repeat f_equal; lra. }
  assert (Hmid : true_divide [30000]%Z NORM_FACTOR = [1.0]).
  { unfold true_divide, NORM_FACTOR. cbn [map]. repeat f_equal; lra. }
  assert (Hout : true_divide [0]%Z NORM_FACTOR = [0.0]).
  { unfold true_divide, NORM_FACTOR. cbn [map]. repeat f_equal; lra. }
  repeat (split; [first [exact scenario_1_parsed | assumption]|]).
  assert (Hne : [15000; -15000]%Z <> []) by discriminate.
  pose proof (main_gate_open _ _ _ _ _ scenario_1_parsed Hne) as Hmain.
  cbv zeta in Hmain. rewrite Hmain, Hin, Hmid, Hout.
  eexists. reflexivity.
Qed.

(** * What the plotters are called with *)

(** C9: when the input stream is not empty and the samples fit int64,
    [main] draws the time-domain figure from the first 200 samples of the
    normalised input, the first 400 of the normalised intermediate and the
    first 150 of the normalised output stream, and then runs the
    frequency-domain plotter on the three normalised streams at full
    length: where that plotter succeeds, its three spectra have half the
    length of the whole streams. *)
Theorem main_plot_arguments (fs : filesystem) (t : list event)
    (s_in_raw s_mid_raw s_out_raw : list Z) :
  parse_file fs FILENAME = (t, Ok (s_in_raw, s_mid_raw, s_out_raw)) ->
  s_in_raw <> [] ->
  fits_int64 s_in_raw = true ->
  fits_int64 s_mid_raw = true ->
  fits_int64 s_out_raw = true ->
  let s_in := true_divide s_in_raw NORM_FACTOR in
  let s_mid := true_divide s_mid_raw NORM_FACTOR in
  let s_out := true_divide s_out_raw NORM_FACTOR in
  main fs
  = (t ++ [Stdout (samples_read_line (s_in_raw, s_mid_raw, s_out_raw));
           Stdout "Normalizing all signals by Fixed Factor: 30000.0";
           TimeFigure (firstn 200 s_in) (firstn 400 s_mid) (firstn 150 s_out)]
       ++ fst (plot_frequency_domain s_in s_mid s_out)
       ++ (if is_ok (snd (plot_frequency_domain s_in s_mid s_out))
           then [PltShow] else []),
     snd (plot_frequency_domain s_in s_mid s_out))
  /\ length (firstn 200 s_in) = Nat.min 200 (length s_in_raw)
  /\ length (firstn 400 s_mid) = Nat.min 400 (length s_mid_raw)
  /\ length (firstn 150 s_out) = Nat.min 150 (length s_out_raw)
  /\ ((2 <= length s_in_raw)%nat -> s_mid_raw <> [] -> s_out_raw <> [] ->
      exists spec_in spec_mid spec_out,
        plot_frequency_domain s_in s_mid s_out
        = ([FreqFigure spec_in spec_mid spec_out], Ok tt)
        /\ length (snd spec_in) = (length s_in_raw / 2)%nat
        /\ length (snd spec_mid) = (length s_mid_raw / 2)%nat
        /\ length (snd spec_out) = (length s_out_raw / 2)%nat).
Proof.
  intros Hp Hne _ _ _ s_in s_mid s_out.
  split; [exact (main_gate_open fs t _ _ _ Hp Hne)|].
  assert (Hlen : forall raw, length (true_divide raw NORM_FACTOR) = length raw)
    by (intros raw; apply length_map).
  subst s_in s_mid s_out. rewrite !length_firstn, !Hlen.
  repeat (split; [reflexivity|]).
  intros H2 Hmid Hout.
  assert (Hne' : forall raw, raw <> [] -> true_divide raw NORM_FACTOR <> []).
  { intros [|x raw] H; [congruence|discriminate]. }
  destruct (get_fft_db_returns _ FS_IN (Hne' _ Hne) FS_IN_nonzero)
    as (f_in & mag_in & Hgi & _ & Hli).
  destruct (get_fft_db_returns _ FS_MID (Hne' _ Hmid) FS_MID_nonzero)
    as (f_mid & mag_mid & Hgm & _ & Hlm).
  destruct (get_fft_db_returns _ FS_OUT (Hne' _ Hout) FS_OUT_nonzero)
    as (f_out & mag_out & Hgo & _ & Hlo).
  rewrite Hlen in Hli, Hlm, Hlo.
  assert (Hmag : mag_in <> []).
  { intros ->. cbn [length] in Hli.
    assert (1 <= length s_in_raw / 2)%nat
      by (apply Nat.div_le_lower_bound; lia).
    lia. }
  destruct (np_max_spec mag_in Hmag) as (ref_level & Hmax & _ & _).
  rewrite (plot_frequency_domain_ok _ _ _ _ _ _ _ _ _ _ Hgi Hgm Hgo Hmax).
  do 3 eexists. split; [reflexivity|].
  unfold spectrum_row. cbn [snd]. rewrite !length_map. auto.
Qed.

(** * The hidden precondition of the spectrum plot *)

(** C10: with exactly one input sample, and samples that fit int64, the
    gate of [main] is open, yet the
    input's half spectrum has length [1//2 = 0]: [get_fft_db] returns two
    empty arrays, [np.max] of the empty magnitude array raises
    [ValueError], and so does [plot_frequency_domain], whatever the other
    two streams are. [main] then draws the time-domain figure and ends with
    that uncaught error, before any display. In general
    [plot_frequency_domain] returns only if the input stream has at least
    two samples. *)
Theorem plot_frequency_domain_needs_two_samples (fs : filesystem)
    (t : list event) (x : Z) (s_mid_raw s_out_raw : list Z) :
  parse_file fs FILENAME = (t, Ok ([x], s_mid_raw, s_out_raw)) ->
  fits_int64 [x] = true ->
  fits_int64 s_mid_raw = true ->
  fits_int64 s_out_raw = true ->
  let s_in := true_divide [x] NORM_FACTOR in
  let s_mid := true_divide s_mid_raw NORM_FACTOR in
  let s_out := true_divide s_out_raw NORM_FACTOR in
  (0 <? length [x])%nat = true
  /\ get_fft_db s_in FS_IN = Ok ([], [])
  /\ np_max [] = Raise ValueError
  /\ plot_frequency_domain s_in s_mid s_out = ([], Raise ValueError)
  /\ main fs
     = (t ++ [Stdout (samples_read_line ([x], s_mid_raw, s_out_raw));
              Stdout "Normalizing all signals by Fixed Factor: 30000.0";
              TimeFigure s_in (firstn 400 s_mid) (firstn 150 s_out)],
        Raise ValueError)
  /\ snd (run_script fs) = true
  /\ forall sig_in sig_mid sig_out : list R,
       snd (plot_frequency_domain sig_in sig_mid sig_out) = Ok tt ->
       (2 <= length sig_in)%nat.
Proof.
  intros Hp _ _ _ s_in s_mid s_out.
  assert (Hraise : plot_frequency_domain s_in s_mid s_out
                   = ([], Raise ValueError)).
  { apply plot_frequency_domain_raises. left. subst s_in. simpl. lia. }
  assert (Hne : [x] <> []) by discriminate.
  pose proof (main_gate_open fs t _ _ _ Hp Hne) as Hmain. cbv zeta in Hmain.
  fold s_in s_mid s_out in Hmain. rewrite Hraise in Hmain.
  cbn [fst snd is_ok app] in Hmain.
  split; [reflexivity|]. split.
  { destruct (get_fft_db_returns s_in FS_IN) as (f & m & Hg & Hlf & Hlm).
    - subst s_in. discriminate.
    - apply FS_IN_nonzero.
    - subst s_in. cbn [true_divide map length Nat.div Nat.divmod fst] in Hlf, Hlm.
      destruct f; [|discriminate]. destruct m; [|discriminate]. exact Hg. }
  split; [reflexivity|]. split; [exact Hraise|]. split.
  { rewrite Hmain. reflexivity. }
  split.
  { unfold run_script. rewrite Hmain. reflexivity. }
  intros sig_in sig_mid sig_out Hok.
  destruct (le_lt_dec 2 (length sig_in)) as [H|H]; [exact H|].
  rewrite (plot_frequency_domain_raises sig_in sig_mid sig_out) in Hok
    by (left; exact H).
  discriminate.
Qed.

(** * The theorems at work on the sample logs *)

Local Open Scope string_scope.

Example mixed_log_parsed :
  snd (parse_file (fs_with mixed_log) FILENAME)
  = Ok ([15000; 10], [12], [-7])%Z.
Proof. vm_compute. reflexivity. Qed.

Example mixed_log_prefixed_lines :
  prefixed_lines "IN:" mixed_log = ["IN: 15000"; "IN: +1_0"]
  /\ prefixed_lines "MID:" mixed_log = ["MID: sample 3 = 12"]
  /\ prefixed_lines "OUT:" mixed_log = ["OUT: -7"].
Proof. vm_compute. repeat split; reflexivity. Qed.

Lemma parse_file_well_formed_witness :
  exists data_in data_mid data_out,
    parse_file (fs_with mixed_log) FILENAME
    = ([Stdout ("Reading " ++ FILENAME ++ "...")],
       Ok (data_in, data_mid, data_out))
    /\ forall p data,
         In (p, data) [("IN:", data_in); ("MID:", data_mid);
                       ("OUT:", data_out)] ->
         fits_int64 data = true
         /\ stream_reads p mixed_log data
         /\ length data = length (prefixed_lines p mixed_log)
         /\ forall n l, nth_error (prefixed_lines p mixed_log) n = Some l ->
                        exists v, nth_error data n = Some v
                                  /\ py_int (last_token l) = Ok v.
Proof.
  apply (parse_file_well_formed (fs_with mixed_log) FILENAME mixed_log);
    vm_compute; reflexivity.
Defined.

Lemma main_missing_file_exits_witness :
  fs_empty FILENAME = None
  /\ main fs_empty
     = ([Stdout "Reading resampler_output.txt...";
         Stdout "Error: Could not find resampler_output.txt. Run the simulation first."],
        Raise (SystemExit None))
  /\ exit_status (snd (main fs_empty)) = 0%Z.
Proof.
  split; [reflexivity|].
  destruct (main_missing_file_exits fs_empty eq_refl) as (_ & Hmain & Hstatus & _).
  split; assumption.
Defined.

Lemma main_empty_input_skips_plotting_witness :
  parse_file (fs_with no_input_log) FILENAME
  = ([Stdout "Reading resampler_output.txt..."], Ok ([], [5], [7; 9])%Z)
  /\ main (fs_with no_input_log)
     = ([Stdout "Reading resampler_output.txt...";
         Stdout "Samples Read -> In: 0, Mid: 1, Out: 2"],
        Ok tt).
Proof.
  assert (H : parse_file (fs_with no_input_log) FILENAME
              = ([Stdout "Reading resampler_output.txt..."],
                 Ok ([], [5], [7; 9])%Z))
    by (vm_compute; reflexivity).
  split; [exact H|].
  destruct (main_empty_input_skips_plotting _ _ _ _ H) as ((Hmain & _) & _).
  exact Hmain.
Defined.

Lemma main_malformed_token_propagates_witness :
  In "MID: 2.5" (stripped_lines malformed_log)
  /\ run_script (fs_with malformed_log)
     = ([Stdout "Reading resampler_output.txt..."], 1%Z, true).
Proof.
  assert (Hin : In "MID: 2.5" (stripped_lines malformed_log))
    by (vm_compute; auto).
  split; [exact Hin|].
  apply (main_malformed_token_propagates
           (fs_with malformed_log) malformed_log "MID: 2.5").
  - reflexivity.
  - exact Hin.
  - reflexivity.
  - intros v H. vm_compute in H. discriminate.
Defined.

Local Open Scope list_scope.
Local Open Scope R_scope.

Lemma get_fft_db_half_spectrum_witness :
  exists fft_freq mag,
    get_fft_db [1; 0; 0; 0; 0] FS_IN = Ok (fft_freq, mag)
    /\ length fft_freq = 2%nat
    /\ length mag = 2%nat
    /\ nth 1 fft_freq 0 = INR 1 * FS_IN / INR 5.
Proof.
  assert (Hsig : [1; 0; 0; 0; 0] <> []) by discriminate.
  destruct (get_fft_db_half_spectrum [1; 0; 0; 0; 0] FS_IN Hsig FS_IN_nonzero)
    as (_ & _ & _ & _ & fft_freq & mag & Hg & Hlf & Hlm & Hbin).
  exists fft_freq, mag. repeat split; try assumption.
  apply (Hbin 1%nat). simpl. lia.
Defined.

Lemma plot_frequency_domain_reference_level_witness :
  exists spec_in spec_mid spec_out,
    plot_frequency_domain [1; 0; 0; 0] [1; 1] [1]
    = ([FreqFigure spec_in spec_mid spec_out], Ok tt)
    /\ np_max (snd spec_in) = Ok 0.
Proof.
  destruct (plot_frequency_domain_reference_level [1; 0; 0; 0] [1; 1] [1])
    as (f_in & mag_in & f_mid & mag_mid & f_out & mag_out & ref_level
        & _ & _ & _ & _ & _ & _ & Hplot & Hzero & _).
  - simpl. lia.
  - discriminate.
  - discriminate.
  - do 3 eexists. split; [exact Hplot|exact Hzero].
Defined.


Lemma long_log_parsed :
  parse_file (fs_with long_log) FILENAME
  = ([Stdout "Reading resampler_output.txt..."],
     Ok (repeat 1%Z 201, repeat 2%Z 401, repeat 3%Z 151)).
Proof. vm_compute. reflexivity. Qed.

Lemma main_plot_arguments_witness :
  exists a b c spec_in spec_mid spec_out,
    main (fs_with long_log)
    = ([Stdout "Reading resampler_output.txt...";
        Stdout "Samples Read -> In: 201, Mid: 401, Out: 151";
        Stdout "Normalizing all signals by Fixed Factor: 30000.0";
        TimeFigure a b c; FreqFigure spec_in spec_mid spec_out; PltShow],
       Ok tt)
    /\ length a = 200%nat /\ length b = 400%nat /\ length c = 150%nat
    /\ length (snd spec_in) = 100%nat
    /\ length (snd spec_mid) = 200%nat
    /\ length (snd spec_out) = 75%nat.
Proof.
  assert (Hne : repeat 1%Z 201 <> []) by discriminate.
  destruct (main_plot_arguments _ _ _ _ _ long_log_parsed Hne
              eq_refl eq_refl eq_refl)
    as (Hmain & Ha & Hb & Hc & Hfreq).
  destruct Hfreq as (spec_in & spec_mid & spec_out & Hplot & Hi & Hm & Ho);
    [rewrite repeat_length; lia|discriminate|discriminate|].
  do 3 eexists. exists spec_in, spec_mid, spec_out.
  split; [rewrite Hmain, Hplot; reflexivity|].
  rewrite Ha, Hb, Hc, Hi, Hm, Ho, !repeat_length.
  repeat split; reflexivity.
Defined.

Lemma one_sample_log_parsed :
  parse_file (fs_with one_sample_log) FILENAME
  = ([Stdout "Reading resampler_output.txt..."], Ok ([5], [1; 2], [1])%Z).
Proof. vm_compute. reflexivity. Qed.

Lemma plot_frequency_domain_needs_two_samples_witness :
  main (fs_with one_sample_log)
  = ([Stdout "Reading resampler_output.txt..."]
       ++ [Stdout "Samples Read -> In: 1, Mid: 2, Out: 1";
           Stdout "Normalizing all signals by Fixed Factor: 30000.0";
           TimeFigure (true_divide [5]%Z NORM_FACTOR)
                      (firstn 400 (true_divide [1; 2]%Z NORM_FACTOR))
                      (firstn 150 (true_divide [1]%Z NORM_FACTOR))],
     Raise ValueError).
Proof.
  apply (plot_frequency_domain_needs_two_samples _ _ _ _ _ one_sample_log_parsed
           eq_refl eq_refl eq_refl).
Defined.

(** * Further properties of the parser and of the run *)

Local Open Scope nat_scope.

Lemma not_well_formed_malformed (text : string) :
  well_formed text = false ->
  existsb malformed_line (stripped_lines text) = true.
Proof.
  intros H. unfold well_formed in H.
  destruct (well_formed_or_malformed (stripped_lines text)) as [Hw|Hm];
    [congruence|exact Hm].
Qed.

(** On a well-formed text the loop returns three streams as long as the
    three lists of prefixed lines. *)
Lemma parse_loop_well_formed (text : string) :
  well_formed text = true ->
  exists data_in data_mid data_out,
    parse_loop (readlines text) [] [] [] = Ok (data_in, data_mid, data_out)
    /\ length data_in = length (prefixed_lines "IN:" text)
    /\ length data_mid = length (prefixed_lines "MID:" text)
    /\ length data_out = length (prefixed_lines "OUT:" text).
Proof.
  intros Hwf.
  destruct (parse_loop_ok (readlines text) [] [] [] Hwf)
    as (xs & ys & zs & Hp & Hx & Hy & Hz).
  exists xs, ys, zs. cbn [app] in Hp. split; [exact Hp|].
  apply (f_equal (@length _)) in Hx, Hy, Hz.
  rewrite !length_map in Hx, Hy, Hz. auto.
Qed.

(** X1: for a log file that [open] reads as text, [parse_file] returns
    when the last token of every sample line is an integer that [int]
    accepts, and raises [ValueError] after the progress line when it is
    not. The indexing [line.split()[-1]] cannot fail on a sample line, so
    no [IndexError] and no other exception comes out of the loop. *)
Theorem parse_file_readable_text (fs : filesystem) (filename text : string) :
  fs filename = Some text ->
  (well_formed text = true ->
   exists data_in data_mid data_out,
     parse_file fs filename
     = ([Stdout ("Reading " ++ filename ++ "...")],
        Ok (data_in, data_mid, data_out))
     /\ length data_in = length (prefixed_lines "IN:" text)
     /\ length data_mid = length (prefixed_lines "MID:" text)
     /\ length data_out = length (prefixed_lines "OUT:" text))
  /\ (well_formed text = false ->
      parse_file fs filename
      = ([Stdout ("Reading " ++ filename ++ "...")], Raise ValueError))
  /\ (forall l, In l (stripped_lines text) -> is_sample_line l = true ->
                split l <> [] /\ last_token_value l = py_int (last_token l))
  /\ (forall e, snd (parse_file fs filename) = Raise e -> e = ValueError).
Proof.
  intros Hfs. rewrite (parse_file_found _ _ _ Hfs). cbn [snd].
  split; [|split; [|split]].
  - intros Hwf.
    destruct (parse_loop_well_formed text Hwf) as (a & b & c & -> & Hl).
    exists a, b, c. split; [reflexivity|exact Hl].
  - intros Hwf.
    rewrite (parse_loop_raises _ _ _ _ (not_well_formed_malformed _ Hwf)).
    reflexivity.
  - intros l _ Hs. split; [|apply last_token_value_sample; exact Hs].
    destruct (sample_line_cases l Hs) as [[Hp _]|[[_ [Hp _]]|[_ [_ Hp]]]].
    + apply startswith_IN in Hp as [r ->]. apply split_nonempty. reflexivity.
    + apply startswith_MID in Hp as [r ->]. apply split_nonempty. reflexivity.
    + apply startswith_OUT in Hp as [r ->]. apply split_nonempty. reflexivity.
  - intros e He.
    destruct (parse_loop_cases (readlines text) [] [] []) as [[r Hr]|Hr];
      congruence.
Qed.

Lemma plot_frequency_domain_returns (sig_in sig_mid sig_out : list R) :
  2 <= length sig_in -> sig_mid <> [] -> sig_out <> [] ->
  exists spec_in spec_mid spec_out,
    plot_frequency_domain sig_in sig_mid sig_out
    = ([FreqFigure spec_in spec_mid spec_out], Ok tt)
    /\ length (fst spec_in) = length sig_in / 2
    /\ length (snd spec_in) = length sig_in / 2
    /\ length (fst spec_mid) = length sig_mid / 2
    /\ length (snd spec_mid) = length sig_mid / 2
    /\ length (fst spec_out) = length sig_out / 2
    /\ length (snd spec_out) = length sig_out / 2.
Proof.
  intros Hin Hmid Hout.
  assert (Hne : sig_in <> []) by (intros ->; simpl in Hin; lia).
  destruct (get_fft_db_returns sig_in FS_IN Hne FS_IN_nonzero)
    as (f_in & mag_in & Hgi & Hfi & Hli).
  destruct (get_fft_db_returns sig_mid FS_MID Hmid FS_MID_nonzero)
    as (f_mid & mag_mid & Hgm & Hfm & Hlm).
  destruct (get_fft_db_returns sig_out FS_OUT Hout FS_OUT_nonzero)
    as (f_out & mag_out & Hgo & Hfo & Hlo).
  assert (Hmag : mag_in <> []).
  { intros ->. cbn [length] in Hli.
    assert (1 <= length sig_in / 2) by (apply Nat.div_le_lower_bound; lia).
    lia. }
  destruct (np_max_spec mag_in Hmag) as (ref_level & Hmax & _ & _).
  rewrite (plot_frequency_domain_ok _ _ _ _ _ _ _ _ _ _ Hgi Hgm Hgo Hmax).
  do 3 eexists. split; [reflexivity|].
  unfold spectrum_row. cbn [fst snd]. rewrite !length_map. auto 10.
Qed.

Lemma true_divide_nonempty (raw : list Z) (d : R) :
  raw <> [] -> true_divide raw d <> [].
Proof. destruct raw; [congruence|discriminate]. Qed.

Lemma length_true_divide (raw : list Z) (d : R) :
  length (true_divide raw d) = length raw.
Proof. apply length_map. Qed.

(** The five ways a run of the model can go. *)
Lemma main_cases (fs : filesystem) :
  let reading := Stdout "Reading resampler_output.txt..." in
  let normalizing :=
    Stdout "Normalizing all signals by Fixed Factor: 30000.0" in
  (fs FILENAME = None
   /\ main fs
      = ([reading;
          Stdout "Error: Could not find resampler_output.txt. Run the simulation first."],
         Raise (SystemExit None)))
  \/ (exists text,
        fs FILENAME = Some text /\ well_formed text = false
        /\ main fs = ([reading], Raise ValueError))
  \/ (exists text s_in_raw s_mid_raw s_out_raw,
        fs FILENAME = Some text /\ well_formed text = true
        /\ parse_loop (readlines text) [] [] []
           = Ok (s_in_raw, s_mid_raw, s_out_raw)
        /\ length s_in_raw = length (prefixed_lines "IN:" text)
        /\ length s_mid_raw = length (prefixed_lines "MID:" text)
        /\ length s_out_raw = length (prefixed_lines "OUT:" text)
        /\ let counts :=
             Stdout (samples_read_line (s_in_raw, s_mid_raw, s_out_raw)) in
           let time_figure :=
             TimeFigure (firstn 200 (true_divide s_in_raw NORM_FACTOR))
                        (firstn 400 (true_divide s_mid_raw NORM_FACTOR))
                        (firstn 150 (true_divide s_out_raw NORM_FACTOR)) in
           (s_in_raw = [] /\ main fs = ([reading; counts], Ok tt))
           \/ (s_in_raw <> []
               /\ (length s_in_raw < 2 \/ s_mid_raw = [] \/ s_out_raw = [])
               /\ main fs
                  = ([reading; counts; normalizing; time_figure],
                     Raise ValueError))
           \/ (2 <= length s_in_raw /\ s_mid_raw <> [] /\ s_out_raw <> []
               /\ exists spec_in spec_mid spec_out,
                    main fs
                    = ([reading; counts; normalizing; time_figure;
                        FreqFigure spec_in spec_mid spec_out; PltShow],
                       Ok tt)
                    /\ length (fst spec_in) = length (snd spec_in)
                    /\ length (fst spec_mid) = length (snd spec_mid)
                    /\ length (fst spec_out) = length (snd spec_out))).
Proof.
  cbv zeta.
  destruct (fs FILENAME) as [text|] eqn:Hfs.
  2:{ left. split; [reflexivity|].
      apply main_parse_raises. apply parse_file_missing. exact Hfs. }
  right. destruct (well_formed text) eqn:Hwf.
  2:{ left. exists text. repeat split; try assumption.
      apply main_parse_raises. rewrite (parse_file_found _ _ _ Hfs).
      rewrite (parse_loop_raises _ _ _ _ (not_well_formed_malformed _ Hwf)).
      reflexivity. }
  right.
  destruct (parse_loop_well_formed text Hwf)
    as (a & b & c & Hloop & Hla & Hlb & Hlc).
  exists text, a, b, c.
  assert (Hp : parse_file fs FILENAME
               = ([Stdout "Reading resampler_output.txt..."], Ok (a, b, c))).
  { rewrite (parse_file_found _ _ _ Hfs), Hloop. reflexivity. }
  repeat (split; [first [reflexivity | assumption]|]).
  destruct a as [|x a'].
  { left. split; [reflexivity|]. apply (main_gate_closed _ _ _ _ Hp). }
  right.
  assert (Hne : x :: a' <> []) by discriminate.
  pose proof (main_gate_open fs _ _ _ _ Hp Hne) as Hmain. cbv zeta in Hmain.
  destruct (le_lt_dec 2 (length (x :: a'))) as [H2|H2].
  - destruct b as [|y b'].
    { left. split; [exact Hne|]. split; [auto|].
      rewrite Hmain, plot_frequency_domain_raises by auto. reflexivity. }
    destruct c as [|z c'].
    { left. split; [exact Hne|]. split; [auto|].
      rewrite Hmain, plot_frequency_domain_raises by auto. reflexivity. }
    right. split; [exact H2|]. split; [discriminate|]. split; [discriminate|].
    destruct (plot_frequency_domain_returns
                (true_divide (x :: a') NORM_FACTOR)
                (true_divide (y :: b') NORM_FACTOR)
                (true_divide (z :: c') NORM_FACTOR))
      as (si & sm & so & Hplot & Hi1 & Hi2 & Hm1 & Hm2 & Ho1 & Ho2);
      [rewrite length_true_divide; exact H2|discriminate|discriminate|].
    exists si, sm, so. split.
    + rewrite Hmain, Hplot. reflexivity.
    + repeat split; congruence.
  - left. split; [exact Hne|]. split; [left; exact H2|].
    rewrite Hmain, plot_frequency_domain_raises
      by (left; rewrite length_true_divide; exact H2).
    reflexivity.
Qed.

(** X7: for a log file that is absent or that [open] reads as text, with
    samples that fit int64, the run reaches [plt.show()] exactly when the
    file exists, is well formed and holds at least two [IN:] lines, one
    [MID:] line and one [OUT:] line; it has then drawn one time-domain and
    one frequency-domain figure, in that order, and returns normally. *)
Theorem main_shows_figures_iff (fs : filesystem) :
  (forall text, fs FILENAME = Some text -> samples_fit_int64 text = true) ->
  (In PltShow (fst (main fs)) <->
   exists text,
     fs FILENAME = Some text /\ well_formed text = true
     /\ 2 <= length (prefixed_lines "IN:" text)
     /\ 1 <= length (prefixed_lines "MID:" text)
     /\ 1 <= length (prefixed_lines "OUT:" text))
  /\ (In PltShow (fst (main fs)) ->
      snd (main fs) = Ok tt
      /\ exists counts a b c spec_in spec_mid spec_out,
           fst (main fs)
           = [Stdout "Reading resampler_output.txt..."; Stdout counts;
              Stdout "Normalizing all signals by Fixed Factor: 30000.0";
              TimeFigure a b c; FreqFigure spec_in spec_mid spec_out;
              PltShow]).
Proof.
  intros _.
  pose proof (main_cases fs) as Hc. cbv zeta in Hc.
  assert (Hnil : forall A (l : list A), l <> [] -> 1 <= length l).
  { intros A [|x l] H; [congruence|simpl; lia]. }
  assert (Hno : forall l : list event,
             Forall (fun e => e <> PltShow) l -> ~ In PltShow l).
  { intros l Hl Hin. rewrite Forall_forall in Hl. exact (Hl _ Hin eq_refl). }
  destruct Hc as [[Hfs ->]|[(text & Hfs & Hwf & ->)
    |(text & a & b & c & Hfs & Hwf & _ & Hla & Hlb & Hlc & Hcase)]].
  - split; [split|].
    + intros Hin. exfalso. revert Hin. apply Hno.
      repeat constructor; discriminate.
    + intros (text & Hfs' & _). congruence.
    + intros Hin. exfalso. revert Hin. apply Hno.
      repeat constructor; discriminate.
  - split; [split|].
    + intros Hin. exfalso. revert Hin. apply Hno.
      repeat constructor; discriminate.
    + intros (text' & Hfs' & Hwf' & _). congruence.
    + intros Hin. exfalso. revert Hin. apply Hno.
      repeat constructor; discriminate.
  - destruct Hcase as [[Ha ->]|[(Hne & Hbad & ->)|(H2 & Hb & Hc' & si & sm & so & -> & _)]].
    + split; [split|].
      * intros Hin. exfalso. revert Hin. apply Hno.
        repeat constructor; discriminate.
      * intros (text' & Hfs' & _ & Hin & _).
        assert (text' = text) by congruence. subst text'.
        rewrite <- Hla, Ha in Hin. simpl in Hin. lia.
      * intros Hin. exfalso. revert Hin. apply Hno.
        repeat constructor; discriminate.
    + split; [split|].
      * intros Hin. exfalso. revert Hin. apply Hno.
        repeat constructor; discriminate.
      * intros (text' & Hfs' & _ & Hin & Hmid & Hout).
        assert (text' = text) by congruence. subst text'.
        rewrite <- Hla in Hin. rewrite <- Hlb in Hmid. rewrite <- Hlc in Hout.
        destruct Hbad as [H|[H|H]]; [lia|subst b|subst c];
          simpl in *; lia.
      * intros Hin. exfalso. revert Hin. apply Hno.
        repeat constructor; discriminate.
    + split; [split|].
      * intros _. exists text. rewrite <- Hla, <- Hlb, <- Hlc.
        repeat split; auto.
      * intros _. cbn [fst In]. auto 10.
      * intros _. cbn [fst snd]. split; [reflexivity|].
        do 7 eexists. reflexivity.
Qed.

(** X8: when the log is well formed, its samples fit int64, and it has an
    [IN:] line, but fewer than two of them, or no [MID:] line, or no [OUT:]
    line, the run prints the
    counts and the normalisation message, draws the time-domain figure, and
    then ends with an uncaught [ValueError] from the spectrum computation:
    no frequency-domain figure, no display, traceback, exit status 1. *)
Theorem main_spectrum_failure (fs : filesystem) (text : string) :
  fs FILENAME = Some text ->
  well_formed text = true ->
  samples_fit_int64 text = true ->
  1 <= length (prefixed_lines "IN:" text) ->
  length (prefixed_lines "IN:" text) < 2
  \/ length (prefixed_lines "MID:" text) = 0
  \/ length (prefixed_lines "OUT:" text) = 0 ->
  (exists a b c,
      fst (main fs)
      = [Stdout "Reading resampler_output.txt...";
         Stdout ("Samples Read -> In: "
                 ++ string_of_nat (length (prefixed_lines "IN:" text))
                 ++ ", Mid: "
                 ++ string_of_nat (length (prefixed_lines "MID:" text))
                 ++ ", Out: "
                 ++ string_of_nat (length (prefixed_lines "OUT:" text)));
         Stdout "Normalizing all signals by Fixed Factor: 30000.0";
         TimeFigure a b c])
  /\ snd (main fs) = Raise ValueError
  /\ run_script fs = (fst (main fs), 1%Z, true).
Proof.
  intros Hfs Hwf _ Hin Hbad.
  pose proof (main_cases fs) as Hc. cbv zeta in Hc.
  destruct Hc as [[Hfs' _]|[(text' & Hfs' & Hwf' & _)
    |(text' & a & b & c & Hfs' & _ & _ & Hla & Hlb & Hlc & Hcase)]];
    try congruence.
  assert (text' = text) by congruence. subst text'.
  rewrite <- Hla in Hin, Hbad. rewrite <- Hlb, <- Hlc in Hbad.
  destruct Hcase as [[Ha _]|[(Hne & _ & Hmain)|(H2 & Hb & Hc' & _)]].
  - subst a. simpl in Hin. lia.
  - unfold run_script. rewrite Hmain. cbn [fst snd].
    split; [|split; reflexivity].
    do 3 eexists. unfold samples_read_line. rewrite Hla, Hlb, Hlc. reflexivity.
  - exfalso. destruct Hbad as [H|[H|H]]; [lia| |].
    + destruct b; [congruence|discriminate].
    + destruct c; [congruence|discriminate].
Qed.


(** ** More on the text primitives *)

Local Open Scope string_scope.

Lemma append_nil_r (s : string) : s ++ "" = s.
Proof. induction s as [|c s IH]; simpl; [reflexivity|rewrite IH; reflexivity]. Qed.

Lemma append_assoc (a b c : string) : (a ++ b) ++ c = a ++ (b ++ c).
Proof. induction a as [|x a IH]; simpl; [reflexivity|rewrite IH; reflexivity]. Qed.

Lemma string_rev_append_twice (w : string) :
  forall cur acc,
    string_rev_append (string_rev_append w cur) acc
    = string_rev_append cur (w ++ acc).
Proof.
  induction w as [|c w IH]; intros cur acc; simpl; [reflexivity|].
  rewrite IH. reflexivity.
Qed.

Lemma string_rev_append_nonempty (w : string) :
  forall c cur, string_rev_append w (String c cur) <> "".
Proof.
  induction w as [|x w IH]; intros c cur; simpl; [discriminate|apply IH].
Qed.

(** The pending token after reading a word from an empty one. *)
Lemma flush_word (w : string) :
  flush (string_rev_append w "") = match w with "" => [] | _ => [w] end.
Proof.
  destruct w as [|c w]; [reflexivity|].
  unfold flush.
  destruct (string_rev_append (String c w) "") eqn:E.
  - simpl in E. exfalso. exact (string_rev_append_nonempty w c "" E).
  - rewrite <- E, string_rev_append_twice. simpl. rewrite append_nil_r.
    reflexivity.
Qed.

Lemma split_go_word (w : string) :
  forall cur rest,
    no_space w = true ->
    split_go cur (w ++ rest) = split_go (string_rev_append w cur) rest.
Proof.
  induction w as [|c w IH]; intros cur rest Hw; [reflexivity|].
  simpl in Hw. apply andb_prop in Hw as [Hc Hw].
  apply negb_true_iff in Hc.
  simpl. rewrite Hc. apply IH. exact Hw.
Qed.

(** A word followed by a whitespace character is the first token. *)
Lemma split_word_space (w : string) (c : ascii) (rest : string) :
  no_space w = true -> w <> "" -> isspace c = true ->
  split (w ++ String c rest) = w :: split rest.
Proof.
  intros Hw Hne Hc. unfold split.
  rewrite split_go_word by exact Hw. simpl. rewrite Hc.
  rewrite flush_word. destruct w; [congruence|reflexivity].
Qed.

(** A text without whitespace is its own single token. *)
Lemma split_word (w : string) :
  no_space w = true -> w <> "" -> split w = [w].
Proof.
  intros Hw Hne. unfold split.
  rewrite <- (append_nil_r w) at 1.
  rewrite split_go_word by exact Hw. simpl.
  rewrite flush_word. destruct w; [congruence|reflexivity].
Qed.

Lemma lstrip_all_space (u : string) (s : string) :
  all_space u = true -> lstrip (u ++ s) = lstrip s.
Proof.
  induction u as [|c u IH]; intros Hu; [reflexivity|].
  simpl in Hu. apply andb_prop in Hu as [Hc Hu].
  simpl. rewrite Hc. apply IH. exact Hu.
Qed.

Lemma rstrip_all_space (v : string) : all_space v = true -> rstrip v = "".
Proof.
  induction v as [|c v IH]; intros Hv; [reflexivity|].
  simpl in Hv. apply andb_prop in Hv as [Hc Hv].
  simpl. rewrite (IH Hv), Hc. reflexivity.
Qed.

Lemma rstrip_app_space (s v : string) :
  all_space v = true -> rstrip (s ++ v) = rstrip s.
Proof.
  intros Hv. induction s as [|c s IH]; simpl.
  - apply rstrip_all_space; exact Hv.
  - rewrite IH. reflexivity.
Qed.

Lemma rstrip_no_space (s : string) : no_space s = true -> rstrip s = s.
Proof.
  induction s as [|c s IH]; intros Hs; [reflexivity|].
  simpl in Hs. apply andb_prop in Hs as [Hc Hs].
  apply negb_true_iff in Hc.
  simpl. rewrite (IH Hs), Hc. reflexivity.
Qed.

(** Stripping keeps a text that a word ends. *)
Lemma rstrip_app_word (s w : string) :
  no_space w = true -> w <> "" -> rstrip (s ++ w) = s ++ w.
Proof.
  intros Hw Hne. induction s as [|c s IH]; simpl.
  - apply rstrip_no_space; exact Hw.
  - rewrite IH.
    destruct (s ++ w) eqn:E.
    + destruct s; simpl in E; [congruence|discriminate].
    + simpl. rewrite andb_false_r. reflexivity.
Qed.

Lemma lstrip_only_space (v : string) : all_space v = true -> lstrip v = "".
Proof.
  induction v as [|c v IH]; intros Hv; [reflexivity|].
  simpl in Hv. apply andb_prop in Hv as [Hc Hv].
  simpl. rewrite Hc. apply IH. exact Hv.
Qed.

(** Whitespace around a line does not change what [strip] returns. *)
Lemma strip_pad (u l v : string) :
  all_space u = true -> all_space v = true ->
  strip (u ++ l ++ v) = strip l.
Proof.
  intros Hu Hv. unfold strip. rewrite lstrip_all_space by exact Hu.
  induction l as [|c l IH]; simpl.
  - rewrite lstrip_only_space by exact Hv. reflexivity.
  - destruct (isspace c); [exact IH|].
    change (String c (l ++ v)) with (String c l ++ v).
    apply rstrip_app_space; exact Hv.
Qed.

(** ** More on the parsing loop *)

Local Open Scope list_scope.

(** The loop looks at each line through [strip] only. *)
Lemma parse_loop_strip_ext (lines : list string) :
  forall (lines' : list string) (a b c : list Z),
    map strip lines = map strip lines' ->
    parse_loop lines a b c = parse_loop lines' a b c.
Proof.
  induction lines as [|l lines IH]; intros [|l' lines'] a b c H;
    try discriminate; [reflexivity|].
  cbn [map] in H. injection H as Hl Hrest.
  cbn [parse_loop]. rewrite Hl.
  destruct (startswith (strip l') "IN:");
    [|destruct (startswith (strip l') "MID:");
      [|destruct (startswith (strip l') "OUT:")]];
    try (destruct (last_token_value (strip l')); cbn [rbind];
         [|reflexivity]);
    apply IH; exact Hrest.
Qed.

(** X4: whitespace added in front of a line or behind it changes nothing:
    two lists of lines that differ only by such padding give the same
    streams, or the same error. *)
Theorem parse_loop_padding (lines lines' : list string) (a b c : list Z) :
  Forall2 (fun l l' => exists u v, all_space u = true /\ all_space v = true
                                   /\ l' = (u ++ l ++ v)%string)
          lines lines' ->
  parse_loop lines' a b c = parse_loop lines a b c.
Proof.
  intros H. apply parse_loop_strip_ext.
  induction H as [|l l' lines lines' (u & v & Hu & Hv & ->) _ IH];
    [reflexivity|].
  cbn [map]. rewrite strip_pad by assumption. rewrite IH. reflexivity.
Qed.

Lemma strip_word (l : string) : no_space l = true -> strip l = l.
Proof.
  intros H. unfold strip.
  assert (Hl : lstrip l = l).
  { destruct l as [|c l]; [reflexivity|]. simpl in H.
    apply andb_prop in H as [Hc _]. apply negb_true_iff in Hc.
    simpl. rewrite Hc. reflexivity. }
  rewrite Hl. apply rstrip_no_space; exact H.
Qed.

Lemma c_isspace_isspace (c : ascii) : c_isspace c = true -> isspace c = true.
Proof.
  destruct c as [[] [] [] [] [] [] [] []]; vm_compute; intros H;
    first [reflexivity | discriminate H].
Qed.

Lemma strip_by_word (space : ascii -> bool) (s : string) :
  (forall c, space c = true -> isspace c = true) ->
  no_space s = true ->
  rstrip_by space (lstrip_by space s) = s.
Proof.
  intros Hsub Hs.
  assert (Hc : forall c, isspace c = false -> space c = false).
  { intros c Hc. destruct (space c) eqn:E; [|reflexivity].
    rewrite (Hsub c E) in Hc. discriminate. }
  assert (Hl : lstrip_by space s = s).
  { destruct s as [|c s]; [reflexivity|]. simpl in Hs.
    apply andb_prop in Hs as [H _]. apply negb_true_iff in H.
    simpl. rewrite (Hc c H). reflexivity. }
  rewrite Hl. clear Hl.
  induction s as [|c s IH]; [reflexivity|].
  simpl in Hs. apply andb_prop in Hs as [H Hs]. apply negb_true_iff in H.
  simpl. rewrite (IH Hs), (Hc c H). reflexivity.
Qed.

(** [int] drops nothing around a text without whitespace. *)
Lemma int_strip_word (l : string) : no_space l = true -> int_strip l = l.
Proof.
  intros H. unfold int_strip.
  destruct (is_ascii l); apply strip_by_word; auto using c_isspace_isspace.
Qed.

(** X2: a sample line without whitespace between the prefix and the number
    ([IN:5], or the bare prefix [IN:]) is not read as a sample: its only
    token begins with the prefix, [int] rejects it, and the loop raises
    [ValueError]. *)
Theorem parse_loop_unseparated_sample (line : string) (rest : list string)
    (a b c : list Z) :
  is_sample_line (strip line) = true ->
  no_space (strip line) = true ->
  last_token (strip line) = strip line
  /\ py_int (strip line) = Raise ValueError
  /\ parse_loop (line :: rest) a b c = Raise ValueError.
Proof.
  intros Hs Hw.
  assert (Hne : strip line <> EmptyString).
  { intros E. rewrite E in Hs. discriminate. }
  assert (Htok : last_token (strip line) = strip line).
  { unfold last_token. rewrite split_word by assumption. reflexivity. }
  assert (Hint : py_int (strip line) = Raise ValueError).
  { unfold py_int. rewrite (int_strip_word _ Hw).
    destruct (sample_line_cases _ Hs) as [(H & _)|[(_ & H & _)|(_ & _ & H)]].
    - apply startswith_IN in H as [r ->]. reflexivity.
    - apply startswith_MID in H as [r ->]. reflexivity.
    - apply startswith_OUT in H as [r ->]. reflexivity. }
  split; [exact Htok|]. split; [exact Hint|].
  apply parse_loop_raises. cbn [map existsb].
  unfold malformed_line. rewrite Hs, Htok, Hint. reflexivity.
Qed.

(** The loop started on lists that already hold samples only appends to
    them. *)
Lemma parse_loop_shift (lines : list string) :
  forall a b c : list Z,
    parse_loop lines a b c
    = streams_app (Ok (a, b, c)) (parse_loop lines [] [] []).
Proof.
  induction lines as [|l lines IH]; intros a b c.
  - simpl. rewrite !app_nil_r. reflexivity.
  - cbn [parse_loop].
    destruct (startswith (strip l) "IN:");
      [|destruct (startswith (strip l) "MID:");
        [|destruct (startswith (strip l) "OUT:")]];
      try (destruct (last_token_value (strip l)) as [v|e]; cbn [rbind];
           [|reflexivity]).
    + rewrite (IH (a ++ [v])), (IH ([] ++ [v])).
      destruct (parse_loop lines [] [] []) as [[[x y] z]|e]; simpl;
        [rewrite <- app_assoc|]; reflexivity.
    + rewrite (IH a (b ++ [v])), (IH [] ([] ++ [v])).
      destruct (parse_loop lines [] [] []) as [[[x y] z]|e]; simpl;
        [rewrite <- app_assoc|]; reflexivity.
    + rewrite (IH a b (c ++ [v])), (IH [] [] ([] ++ [v])).
      destruct (parse_loop lines [] [] []) as [[[x y] z]|e]; simpl;
        [rewrite <- app_assoc|]; reflexivity.
    + apply IH.
Qed.

Lemma parse_loop_app (l1 l2 : list string) :
  forall a b c : list Z,
    parse_loop (l1 ++ l2) a b c
    = match parse_loop l1 a b c with
      | Ok (a', b', c') => parse_loop l2 a' b' c'
      | Raise e => Raise e
      end.
Proof.
  induction l1 as [|l l1 IH]; intros a b c; [reflexivity|].
  cbn [app parse_loop].
  destruct (startswith (strip l) "IN:");
    [|destruct (startswith (strip l) "MID:");
      [|destruct (startswith (strip l) "OUT:")]];
    try (destruct (last_token_value (strip l)) as [v|e]; cbn [rbind];
         [|reflexivity]);
    apply IH.
Qed.

Lemma parse_loop_app_nil (l1 l2 : list string) :
  parse_loop (l1 ++ l2) [] [] []
  = streams_app (parse_loop l1 [] [] []) (parse_loop l2 [] [] []).
Proof.
  rewrite parse_loop_app.
  destruct (parse_loop l1 [] [] []) as [[[a b] c]|e]; [|reflexivity].
  apply parse_loop_shift.
Qed.

(** ** Cutting a text into lines *)

Local Open Scope string_scope.

Lemma readlines_go_app_le (t2 : string) (n : nat) :
  forall (s cur : string),
    String.length s <= n ->
    readlines_go cur (s ++ String LF t2)
    = (readlines_go cur (s ++ String LF "") ++ readlines_go "" t2)%list.
Proof.
  induction n as [|n IH]; intros s cur Hn.
  - destruct s; [reflexivity|simpl in Hn; lia].
  - destruct s as [|c s]; [reflexivity|].
    simpl in Hn. cbn [append readlines_go].
    destruct (Ascii.eqb c LF).
    { rewrite IH by lia. reflexivity. }
    destruct (Ascii.eqb c CR).
    2:{ apply IH; lia. }
    destruct s as [|c' s]; [reflexivity|].
    simpl in Hn. cbn [append].
    destruct (Ascii.eqb c' LF).
    + rewrite IH by lia. reflexivity.
    + change (String c' (s ++ String LF t2)) with (String c' s ++ String LF t2).
      change (String c' (s ++ String LF ""))
        with (String c' s ++ String LF "").
      rewrite (IH (String c' s)) by (simpl; lia). reflexivity.
Qed.

(** A text that ends a line, followed by another text, is cut into the
    lines of the first followed by the lines of the second. *)
Lemma readlines_app (s t2 : string) :
  readlines ((s ++ String LF "") ++ t2)
  = (readlines (s ++ String LF "") ++ readlines t2)%list.
Proof.
  unfold readlines. rewrite append_assoc. cbn [append].
  apply (readlines_go_app_le t2 (String.length s)). lia.
Qed.

(** Windows line endings are read as plain newlines. *)
Lemma readlines_go_crlf (s : string) :
  forall cur, has_char CR s = false ->
              readlines_go cur (crlf s) = readlines_go cur s.
Proof.
  induction s as [|c s IH]; intros cur H; [reflexivity|].
  cbn [has_char] in H. apply orb_false_elim in H as [Hc Hs].
  cbn [crlf readlines_go].
  destruct (Ascii.eqb c LF) eqn:Hlf.
  - cbn [readlines_go]. change (Ascii.eqb CR LF) with false.
    change (Ascii.eqb CR CR) with true. cbn iota.
    change (Ascii.eqb LF LF) with true. cbn iota.
    rewrite IH by exact Hs. reflexivity.
  - cbn [readlines_go]. rewrite Hlf, Hc. apply IH. exact Hs.
Qed.

Lemma readlines_go_line (l : string) :
  forall cur rest,
    has_char LF l = false -> has_char CR l = false ->
    readlines_go cur (l ++ String LF rest)
    = string_rev_append cur (l ++ String LF "") :: readlines_go "" rest.
Proof.
  induction l as [|c l IH]; intros cur rest Hlf Hcr.
  - cbn [append readlines_go]. change (Ascii.eqb LF LF) with true.
    reflexivity.
  - cbn [has_char] in Hlf, Hcr.
    apply orb_false_elim in Hlf as [Hc1 Hlf].
    apply orb_false_elim in Hcr as [Hc2 Hcr].
    cbn [append readlines_go]. rewrite Hc1, Hc2.
    rewrite IH by assumption. reflexivity.
Qed.

(** A text written line by line is read back line by line, each line with
    its newline. *)
Lemma readlines_unlines (ls : list string) :
  Forall (fun l => has_char LF l = false /\ has_char CR l = false) ls ->
  readlines (unlines ls) = map (fun l => l ++ String LF "") ls.
Proof.
  induction 1 as [|l ls [Hlf Hcr] _ IH]; [reflexivity|].
  unfold readlines in *. cbn [unlines fold_right map].
  rewrite readlines_go_line by assumption.
  fold (unlines ls). rewrite IH. reflexivity.
Qed.

(** ** Reading back an integer written in decimal *)

Local Open Scope string_scope.

Ltac eval_digit_value :=
  match goal with
  | |- context [digit_value ?c] =>
      let v := eval vm_compute in (digit_value c) in
      change (digit_value c) with v; cbv iota
  end.

Lemma int_digits_uint_acc (d : Decimal.uint) :
  forall (p : positive) (count : nat),
    int_digits (NilEmpty.string_of_uint d) (Zpos p) count true
    = Some (Zpos (Pos.of_uint_acc d p), (count + Decimal.nb_digits d)%nat).
Proof.
  induction d; intros p count; cbn [NilEmpty.string_of_uint int_digits];
    [rewrite Nat.add_0_r; reflexivity|..];
    eval_digit_value;
    cbn [Pos.of_uint_acc Decimal.nb_digits];
    rewrite <- Nat.add_succ_comm;
    match goal with
    | |- int_digits _ ?z _ _ = Some (Zpos (Pos.of_uint_acc _ ?q), _) =>
        replace z with (Zpos q) by lia
    end;
    apply IHd.
Qed.

Lemma int_digits_uint (d : Decimal.uint) :
  forall (count : nat) (after_digit : bool),
    d <> Decimal.Nil \/ after_digit = true ->
    int_digits (NilEmpty.string_of_uint d) 0%Z count after_digit
    = Some (Z.of_N (Pos.of_uint d), (count + Decimal.nb_digits d)%nat).
Proof.
  induction d; intros count after_digit H;
    cbn [NilEmpty.string_of_uint int_digits].
  1:{ destruct H as [H| ->]; [congruence|]. rewrite Nat.add_0_r. reflexivity. }
  1:{ eval_digit_value. cbn [Pos.of_uint Decimal.nb_digits].
      rewrite <- Nat.add_succ_comm. apply IHd. right; reflexivity. }
  all: eval_digit_value; cbn [Pos.of_uint Decimal.nb_digits Z.of_N];
    rewrite <- Nat.add_succ_comm;
    match goal with
    | |- int_digits _ ?z _ _ = Some (Zpos (Pos.of_uint_acc _ ?q), _) =>
        change z with (Zpos q)
    end;
    apply int_digits_uint_acc.
Qed.

Lemma no_space_string_of_uint (d : Decimal.uint) :
  no_space (NilEmpty.string_of_uint d) = true.
Proof. induction d; cbn [NilEmpty.string_of_uint no_space]; try reflexivity; exact IHd. Qed.

Lemma no_space_string_of_Z (z : Z) : no_space (string_of_Z z) = true.
Proof.
  unfold string_of_Z. destruct (Z.to_int z) as [d|d];
    cbn [NilEmpty.string_of_int no_space]; apply no_space_string_of_uint.
Qed.

Lemma to_int_nonnil (z : Z) :
  match Z.to_int z with
  | Decimal.Pos d => d <> Decimal.Nil
  | Decimal.Neg d => d <> Decimal.Nil
  end.
Proof.
  destruct z; cbn [Z.to_int]; try apply DecimalPos.Unsigned.to_uint_nonnil.
  discriminate.
Qed.

Lemma string_of_Z_nonempty (z : Z) : string_of_Z z <> "".
Proof.
  unfold string_of_Z. pose proof (to_int_nonnil z) as H.
  destruct (Z.to_int z) as [d|d]; cbn [NilEmpty.string_of_int];
    [|discriminate].
  destruct d; cbn [NilEmpty.string_of_uint]; congruence || discriminate.
Qed.

Lemma int_unsigned_uint (d : Decimal.uint) :
  d <> Decimal.Nil ->
  (Decimal.nb_digits d <= int_max_str_digits)%nat ->
  int_unsigned (NilEmpty.string_of_uint d) = Ok (Z.of_uint d).
Proof.
  intros Hd Hn. unfold int_unsigned.
  rewrite int_digits_uint by (left; exact Hd). cbn [Nat.add].
  destruct (Nat.leb_spec (Decimal.nb_digits d) int_max_str_digits);
    [reflexivity|lia].
Qed.

(** An integer of at most 4300 digits, written in plain decimal, is read
    back by [int]. *)
Lemma py_int_string_of_Z (z : Z) :
  (decimal_digits z <= int_max_str_digits)%nat ->
  py_int (string_of_Z z) = Ok z.
Proof.
  intros Hn. unfold py_int.
  rewrite (int_strip_word _ (no_space_string_of_Z z)).
  rewrite <- (DecimalZ.of_to z) at 2.
  unfold string_of_Z, decimal_digits in *.
  pose proof (to_int_nonnil z) as Hnil.
  destruct (Z.to_int z) as [d|d]; cbn [NilEmpty.string_of_int Z.of_int].
  - rewrite <- (int_unsigned_uint d Hnil Hn).
    destruct d; cbn [NilEmpty.string_of_uint]; reflexivity.
  - rewrite (int_unsigned_uint d Hnil Hn). reflexivity.
Qed.

(** ** Writing a log and reading it back *)

Lemma has_char_no_space (c : ascii) (s : string) :
  isspace c = true -> no_space s = true -> has_char c s = false.
Proof.
  intros Hc. induction s as [|x s IH]; intros Hs; [reflexivity|].
  cbn [no_space] in Hs. apply andb_prop in Hs as [Hx Hs].
  cbn [has_char]. rewrite (IH Hs), orb_false_r.
  destruct (Ascii.eqb_spec x c) as [->|_]; [|reflexivity].
  rewrite Hc in Hx. discriminate.
Qed.

Lemma has_char_app (c : ascii) (a b : string) :
  has_char c (a ++ b) = has_char c a || has_char c b.
Proof.
  induction a as [|x a IH]; [reflexivity|].
  cbn [append has_char]. rewrite IH, orb_assoc. reflexivity.
Qed.

Lemma log_line_no_newline (e : stream_tag * Z) :
  has_char LF (log_line e) = false /\ has_char CR (log_line e) = false.
Proof.
  destruct e as [t z]. unfold log_line. cbn [fst snd].
  change (String " " (string_of_Z z)) with (" " ++ string_of_Z z).
  rewrite !has_char_app.
  rewrite !(has_char_no_space _ (string_of_Z z))
    by (reflexivity || apply no_space_string_of_Z).
  destruct t; split; reflexivity.
Qed.

Lemma strip_log_line (e : stream_tag * Z) :
  strip (log_line e ++ String LF "") = log_line e.
Proof.
  change (log_line e ++ String LF "")
    with ("" ++ log_line e ++ String LF "").
  rewrite (strip_pad "" (log_line e) (String LF "")) by reflexivity.
  destruct e as [t z]. unfold log_line, strip. cbn [fst snd].
  assert (Hr : forall p, rstrip (p ++ String " " (string_of_Z z))
                         = p ++ String " " (string_of_Z z)).
  { intros p.
    change (String " " (string_of_Z z)) with (" " ++ string_of_Z z).
    rewrite <- append_assoc.
    apply rstrip_app_word;
      [apply no_space_string_of_Z|apply string_of_Z_nonempty]. }
  destruct t; cbn [tag_prefix append lstrip];
    change (isspace "I") with false; change (isspace "M") with false;
    change (isspace "O") with false; cbv iota;
    [apply (Hr "IN:")|apply (Hr "MID:")|apply (Hr "OUT:")].
Qed.

Lemma last_token_log_line (e : stream_tag * Z) :
  last_token (log_line e) = string_of_Z (snd e).
Proof.
  destruct e as [t z]. unfold last_token, log_line. cbn [fst snd].
  rewrite split_word_space;
    [|destruct t; reflexivity|destruct t; discriminate|reflexivity].
  rewrite split_word
    by (apply no_space_string_of_Z || apply string_of_Z_nonempty).
  reflexivity.
Qed.

Lemma startswith_log_line (t u : stream_tag) (z : Z) :
  startswith (log_line (t, z)) (tag_prefix u) = tag_eqb t u.
Proof. destruct t, u; reflexivity. Qed.

(** One turn of the loop on a line that [log_line] wrote. *)
Lemma parse_loop_log_line (e : stream_tag * Z) (rest : list string)
    (a b c : list Z) :
  (decimal_digits (snd e) <= int_max_str_digits)%nat ->
  parse_loop ((log_line e ++ String LF "") :: rest) a b c
  = match fst e with
    | TagIn => parse_loop rest (a ++ [snd e]) b c
    | TagMid => parse_loop rest a (b ++ [snd e]) c
    | TagOut => parse_loop rest a b (c ++ [snd e])
    end.
Proof.
  intros Hd.
  assert (Hs : is_sample_line (strip (log_line e ++ String LF "")) = true).
  { rewrite strip_log_line. destruct e as [[] z]; reflexivity. }
  rewrite (parse_loop_sample _ _ _ _ _ (snd e) Hs)
    by (rewrite strip_log_line, last_token_log_line;
        apply py_int_string_of_Z; exact Hd).
  rewrite strip_log_line. destruct e as [[] z]; reflexivity.
Qed.

Lemma parse_loop_write_log (entries : list (stream_tag * Z)) :
  forall a b c : list Z,
    Forall (fun e => (decimal_digits (snd e) <= int_max_str_digits)%nat)
           entries ->
    parse_loop (map (fun l => l ++ String LF "") (map log_line entries)) a b c
    = Ok ((a ++ samples_of TagIn entries)%list,
          (b ++ samples_of TagMid entries)%list,
          (c ++ samples_of TagOut entries)%list).
Proof.
  induction entries as [|e entries IH]; intros a b c H.
  - cbn. rewrite !app_nil_r. reflexivity.
  - inversion H as [|? ? He Hrest]; subst. cbn [map].
    rewrite (parse_loop_log_line e _ a b c He).
    destruct e as [[] z]; cbn [fst snd]; rewrite (IH _ _ _ Hrest);
      unfold samples_of; cbn [filter tag_eqb fst map snd];
      rewrite <- ?app_assoc; reflexivity.
Qed.

(** * More theorems on the parser *)

Local Open Scope string_scope.
Local Open Scope list_scope.

(** X3: the three lists that the loop builds from a log that ends a line,
    followed by a second log, are the lists it builds from the first, each
    followed by the one it builds from the second; if either part holds a
    malformed sample line the loop raises, and an error in the first part
    hides whatever the second part holds. *)
Theorem parse_loop_concat (s t2 : string) :
  let t1 := (s ++ String LF "")%string in
  parse_loop (readlines (t1 ++ t2)%string) [] [] []
  = streams_app (parse_loop (readlines t1) [] [] [])
                (parse_loop (readlines t2) [] [] []).
Proof.
  cbv zeta. rewrite readlines_app. apply parse_loop_app_nil.
Qed.

(** X5: a log without a lone carriage return reads the same with Windows
    line endings ([\r\n]) as with plain newlines: [parse_file] returns the
    same streams or raises the same error, and the whole run is the
    same. *)
Theorem parse_file_crlf (text : string) :
  has_char CR text = false ->
  readlines (crlf text) = readlines text
  /\ parse_file (fs_with (crlf text)) FILENAME
     = parse_file (fs_with text) FILENAME
  /\ main (fs_with (crlf text)) = main (fs_with text).
Proof.
  intros H.
  assert (Hr : readlines (crlf text) = readlines text)
    by (apply readlines_go_crlf; exact H).
  assert (Hp : parse_file (fs_with (crlf text)) FILENAME
               = parse_file (fs_with text) FILENAME).
  { rewrite !(parse_file_found (fs_with _) FILENAME _ eq_refl), Hr.
    reflexivity. }
  split; [exact Hr|]. split; [exact Hp|].
  unfold main. rewrite Hp. reflexivity.
Qed.

(** X6: a log written one sample per line, as the prefix of the stream, a
    space and the value in plain decimal (at most 4300 digits each), in any
    interleaving of the three streams, is read back exactly: each list the
    loop builds holds the values written for its stream, in the order
    written. When the values fit int64, these are the arrays that
    [parse_file] returns. *)
Theorem write_log_round_trip (entries : list (stream_tag * Z)) :
  Forall (fun e => decimal_digits (snd e) <= int_max_str_digits) entries ->
  parse_loop (readlines (write_log entries)) [] [] []
  = Ok (samples_of TagIn entries, samples_of TagMid entries,
        samples_of TagOut entries)
  /\ (fits_int64 (map snd entries) = true ->
      parse_file (fs_with (write_log entries)) FILENAME
      = ([Stdout "Reading resampler_output.txt..."],
         Ok (samples_of TagIn entries, samples_of TagMid entries,
             samples_of TagOut entries))).
Proof.
  intros H.
  assert (Hloop : parse_loop (readlines (write_log entries)) [] [] []
                  = Ok (samples_of TagIn entries, samples_of TagMid entries,
                        samples_of TagOut entries)).
  { unfold write_log. rewrite readlines_unlines.
    - rewrite (parse_loop_write_log entries [] [] [] H). reflexivity.
    - apply Forall_forall. intros l Hl.
      apply in_map_iff in Hl as (e & <- & _). apply log_line_no_newline. }
  split; [exact Hloop|]. intros _.
  rewrite (parse_file_found (fs_with _) FILENAME _ eq_refl), Hloop.
  reflexivity.
Qed.

(** * More on the spectrum *)

Local Open Scope R_scope.

(** [get_fft_db] returns only on a signal that is not empty, at a sample
    rate that is not zero. *)
Lemma get_fft_db_ok_inv (sig : list R) (fs : R) (r : list R * list R) :
  get_fft_db sig fs = Ok r -> sig <> [] /\ fs <> 0.
Proof.
  intros H. split.
  - intros ->. rewrite get_fft_db_empty in H. discriminate.
  - intros ->. unfold get_fft_db in H.
    destruct (np_fft (multiply sig (np_hamming (length sig)))); [|discriminate].
    cbn [rbind] in H. unfold py_truediv in H.
    destruct (Req_EM_T 0 0) as [_|Hn]; [discriminate|]. apply Hn; reflexivity.
Qed.

(** Bin by bin, what [get_fft_db] returns. *)
Lemma get_fft_db_bins (sig : list R) (fs : R) :
  sig <> [] -> fs <> 0 ->
  let n := length sig in
  exists fft_freq mag,
    get_fft_db sig fs = Ok (fft_freq, mag)
    /\ length fft_freq = (n / 2)%nat
    /\ length mag = (n / 2)%nat
    /\ (forall k, (k < n / 2)%nat -> nth k fft_freq 0 = INR k * fs / INR n)
    /\ (forall k, (k < n / 2)%nat ->
          nth k mag 0
          = 20 * np_log10
                   (np_abs (dft_bin (multiply sig (np_hamming n)) k) + 1e-12)).
Proof.
  intros Hsig Hfs n.
  assert (Hn : (1 <= n)%nat) by (subst n; destruct sig; simpl; [congruence|lia]).
  pose proof (get_fft_db_ok sig fs Hsig Hfs) as Hok. cbv zeta in Hok.
  fold n in Hok. pose proof (half_le n) as Hhalf.
  do 2 eexists. split; [exact Hok|].
  split; [|split; [|split]].
  - rewrite length_firstn, length_map, length_fftfreq_bins by exact Hn. lia.
  - rewrite length_map, length_firstn, length_map, length_seq. lia.
  - intros k Hk.
    rewrite nth_firstn. destruct (Nat.ltb_spec k (n / 2)); [|lia].
    rewrite (nth_map_default _ _ _ 0%Z)
      by (rewrite length_fftfreq_bins by exact Hn; lia).
    rewrite nth_fftfreq_bins by exact Hk.
    rewrite <- INR_IZR_INZ.
    assert (INR n <> 0) by (apply not_0_INR; lia).
    field. split; assumption.
  - intros k Hk.
    rewrite (nth_map_default _ _ _ (dft_bin (multiply sig (np_hamming n)) 0))
      by (rewrite length_firstn, length_map, length_seq; lia).
    rewrite nth_firstn. destruct (Nat.ltb_spec k (n / 2)); [|lia].
    rewrite (nth_map_default _ _ _ 0%nat) by (rewrite length_seq; lia).
    rewrite seq_nth by lia. reflexivity.
Qed.

(** X10: the frequencies [get_fft_db] returns start at 0, rise in equal
    steps of [fs/n], and stay below the Nyquist frequency [fs/2]. *)
Theorem get_fft_db_frequency_axis (sig : list R) (fs : R) :
  sig <> [] -> 0 < fs ->
  exists fft_freq mag,
    get_fft_db sig fs = Ok (fft_freq, mag)
    /\ forall k, (k < length sig / 2)%nat ->
         0 <= nth k fft_freq 0 < fs / 2
         /\ (k = 0%nat -> nth k fft_freq 0 = 0)
         /\ ((S k < length sig / 2)%nat ->
             nth (S k) fft_freq 0 - nth k fft_freq 0 = fs / INR (length sig)).
Proof.
  intros Hsig Hfs.
  assert (Hfs0 : fs <> 0) by lra.
  destruct (get_fft_db_bins sig fs Hsig Hfs0)
    as (fft_freq & mag & Hg & _ & _ & Hf & _).
  exists fft_freq, mag. split; [exact Hg|].
  intros k Hk. set (n := length sig) in *.
  assert (Hn : (2 * k + 2 <= n)%nat).
  { pose proof (Nat.Div0.mul_div_le n 2). lia. }
  assert (Hnpos : 0 < INR n) by (apply lt_0_INR; lia).
  assert (Hkn : 2 * INR k + 2 <= INR n).
  { apply le_INR in Hn. rewrite plus_INR, mult_INR in Hn. simpl in Hn. lra. }
  pose proof (pos_INR k) as Hk0.
  rewrite (Hf k Hk).
  split; [split|split].
  - apply Rmult_le_pos; [apply Rmult_le_pos; lra|].
    apply Rlt_le, Rinv_0_lt_compat; exact Hnpos.
  - apply (Rmult_lt_reg_r (INR n)); [exact Hnpos|].
    unfold Rdiv. rewrite Rmult_assoc, Rinv_l, Rmult_1_r by lra. nra.
  - intros ->. simpl. unfold Rdiv. ring.
  - intros Hk'. rewrite (Hf (S k) Hk'). rewrite S_INR. field. lra.
Qed.

Lemma ln_10_pos : 0 < ln 10.
Proof. rewrite <- ln_1. apply ln_increasing; lra. Qed.

Lemma np_log10_floor : np_log10 1e-12 = -12.
Proof.
  unfold np_log10.
  replace 1e-12 with (/ 10 ^ 12) by (simpl; lra).
  rewrite ln_Rinv by (apply pow_lt; lra).
  rewrite ln_pow by lra.
  pose proof ln_10_pos. simpl INR. field. lra.
Qed.

Lemma np_log10_monotone (x y : R) : 0 < x -> x <= y -> np_log10 x <= np_log10 y.
Proof.
  intros Hx Hxy. unfold np_log10, Rdiv.
  apply Rmult_le_compat_r.
  - apply Rlt_le, Rinv_0_lt_compat, ln_10_pos.
  - destruct Hxy as [Hlt| ->]; [|lra].
    apply Rlt_le, ln_increasing; assumption.
Qed.

Lemma np_abs_nonneg (z : complex) : 0 <= np_abs z.
Proof. apply sqrt_pos. Qed.

(** X11: no magnitude that [get_fft_db] returns lies below -240 dB: the
    offset [1e-12] keeps the argument of the logarithm positive, even on a
    bin that is exactly zero. *)
Theorem get_fft_db_magnitude_floor (sig : list R) (fs : R)
    (fft_freq mag : list R) :
  get_fft_db sig fs = Ok (fft_freq, mag) ->
  Forall (fun m => -240 <= m) mag
  /\ forall k, (k < length sig / 2)%nat ->
       0 < np_abs (dft_bin (multiply sig (np_hamming (length sig))) k) + 1e-12
       /\ -240 <= nth k mag 0.
Proof.
  intros H.
  destruct (get_fft_db_ok_inv _ _ _ H) as [Hsig Hfs].
  destruct (get_fft_db_bins sig fs Hsig Hfs)
    as (f' & mag' & Hg & _ & Hl & _ & Hm).
  cbv zeta in Hl, Hm.
  assert (mag' = mag) by congruence. subst mag'.
  assert (Hbin : forall k, (k < length sig / 2)%nat ->
             0 < np_abs (dft_bin (multiply sig (np_hamming (length sig))) k)
                 + 1e-12
             /\ -240 <= nth k mag 0).
  { intros k Hk. rewrite (Hm k Hk).
    set (x := np_abs _). pose proof (np_abs_nonneg
      (dft_bin (multiply sig (np_hamming (length sig))) k)) as Hx.
    fold x in Hx. split; [lra|].
    assert (Hle : np_log10 1e-12 <= np_log10 (x + 1e-12))
      by (apply np_log10_monotone; lra).
    rewrite np_log10_floor in Hle. lra. }
  split; [|exact Hbin].
  apply Forall_forall. intros m Hin.
  destruct (In_nth mag m 0 Hin) as (k & Hk & <-).
  apply Hbin. rewrite <- Hl. exact Hk.
Qed.

(** The window of [np.hamming] lies between 0.08 and 1 and is symmetric. *)
Lemma np_hamming_bounds (m k : nat) :
  (k < m)%nat -> 0.08 <= nth k (np_hamming m) 0 <= 1.
Proof.
  intros Hk. destruct (le_lt_dec 2 m) as [Hm|Hm].
  - rewrite nth_np_hamming by assumption.
    pose proof (COS_bound (2 * PI * INR k / INR (m - 1))). lra.
  - assert (m = 1%nat) by lia. subst m.
    assert (k = 0%nat) by lia. subst k. simpl. lra.
Qed.

Lemma np_hamming_symmetric (m k : nat) :
  (k < m)%nat ->
  nth (m - 1 - k) (np_hamming m) 0 = nth k (np_hamming m) 0.
Proof.
  intros Hk. destruct (le_lt_dec 2 m) as [Hm|Hm].
  - rewrite !nth_np_hamming by lia.
    assert (Hd : 0 < INR (m - 1)) by (apply lt_0_INR; lia).
    rewrite (minus_INR (m - 1) k) by lia.
    replace (2 * PI * (INR (m - 1) - INR k) / INR (m - 1))
      with (2 * PI - 2 * PI * INR k / INR (m - 1)) by (field; lra).
    rewrite cos_minus, cos_2PI, sin_2PI. lra.
  - assert (m = 1%nat) by lia. subst m.
    assert (k = 0%nat) by lia. subst k. reflexivity.
Qed.

(** X12: for a signal that is not empty and a sample rate that is not
    zero, the magnitudes [get_fft_db] returns are those of the transform of
    the signal multiplied, sample by sample, by the window of
    [np.hamming]: its coefficients lie between 0.08 and 1, are symmetric
    about the middle and, from two points on, are 0.08 at both ends; so no
    windowed sample is larger in magnitude than the sample it comes from. *)
Theorem get_fft_db_window (sig : list R) (fs : R) :
  sig <> [] -> fs <> 0 ->
  let n := length sig in
  let window := np_hamming n in
  (forall k, (k < n)%nat ->
     0.08 <= nth k window 0 <= 1
     /\ nth (n - 1 - k) window 0 = nth k window 0
     /\ nth k (multiply sig window) 0 = nth k sig 0 * nth k window 0
     /\ Rabs (nth k (multiply sig window) 0) <= Rabs (nth k sig 0))
  /\ ((2 <= n)%nat ->
      nth 0 window 0 = 0.08 /\ nth (n - 1) window 0 = 0.08)
  /\ exists fft_freq mag,
       get_fft_db sig fs = Ok (fft_freq, mag)
       /\ forall k, (k < n / 2)%nat ->
            nth k mag 0
            = 20 * np_log10
                     (np_abs (dft_bin (multiply sig window) k) + 1e-12).
Proof.
  intros Hsig Hfs n window.
  assert (Hlen : length window = n) by apply length_np_hamming.
  split; [|split].
  - intros k Hk.
    pose proof (np_hamming_bounds n k Hk) as Hb. fold window in Hb.
    assert (Hmul : nth k (multiply sig window) 0
                   = nth k sig 0 * nth k window 0)
      by (apply nth_multiply; [exact Hk|rewrite Hlen; exact Hk]).
    split; [exact Hb|]. split; [apply np_hamming_symmetric; exact Hk|].
    split; [exact Hmul|].
    rewrite Hmul, Rabs_mult, (Rabs_pos_eq (nth k window 0)) by lra.
    pose proof (Rabs_pos (nth k sig 0)). nra.
  - intros Hn.
    assert (H0 : nth 0 window 0 = 0.08).
    { subst window. rewrite nth_np_hamming by lia.
      replace (2 * PI * INR 0 / INR (n - 1)) with 0
        by (simpl INR; unfold Rdiv; ring).
      rewrite cos_0. lra. }
    split; [exact H0|].
    rewrite <- H0. subst window.
    replace (n - 1)%nat with (n - 1 - 0)%nat by lia.
    apply np_hamming_symmetric. lia.
  - destruct (get_fft_db_bins sig fs Hsig Hfs)
      as (fft_freq & mag & Hg & _ & _ & _ & Hm).
    exists fft_freq, mag. split; [exact Hg|exact Hm].
Qed.

Lemma map_snd_combine_seq (a : list R) :
  forall s : nat, map snd (combine (seq s (length a)) a) = a.
Proof.
  induction a as [|x a IH]; intros s; [reflexivity|].
  cbn [length seq combine map snd]. rewrite IH. reflexivity.
Qed.

Lemma Rsum_zero {A : Type} (l : list A) : Rsum (map (fun _ => 0) l) = 0.
Proof. induction l as [|x l IH]; simpl; [reflexivity|rewrite IH; lra]. Qed.

(** Bin 0 of the transform is the sum of the samples. *)
Lemma dft_bin_0 (a : list R) : dft_bin a 0 = (Rsum a, 0).
Proof.
  unfold dft_bin.
  assert (Hangle : forall m : nat, 2 * PI * INR m * INR 0 / INR (length a) = 0)
    by (intros m; simpl INR; unfold Rdiv; ring).
  f_equal.
  - rewrite (map_ext _ snd)
      by (intros [m x]; cbn [fst snd]; rewrite Hangle, cos_0; ring).
    rewrite map_snd_combine_seq. reflexivity.
  - rewrite (map_ext _ (fun _ => 0))
      by (intros [m x]; cbn [fst snd]; rewrite Hangle, sin_0; ring).
    apply Rsum_zero.
Qed.

(** X13: for a signal of two samples or more, the first bin returned is
    the DC bin: frequency 0, and magnitude [20*log10(|S| + 1e-12)] where
    [S] is the sum of the windowed samples. *)
Theorem get_fft_db_dc_bin (sig : list R) (fs : R) :
  (2 <= length sig)%nat -> fs <> 0 ->
  exists fft_freq mag,
    get_fft_db sig fs = Ok (fft_freq, mag)
    /\ nth 0 fft_freq 0 = 0
    /\ nth 0 mag 0
       = 20 * np_log10
                (Rabs (Rsum (multiply sig (np_hamming (length sig)))) + 1e-12).
Proof.
  intros Hn Hfs.
  assert (Hsig : sig <> []) by (intros ->; simpl in Hn; lia).
  destruct (get_fft_db_bins sig fs Hsig Hfs)
    as (fft_freq & mag & Hg & _ & _ & Hf & Hm).
  cbv zeta in Hf, Hm.
  assert (H0 : (0 < length sig / 2)%nat)
    by (apply Nat.div_str_pos; lia).
  exists fft_freq, mag. split; [exact Hg|]. split.
  - rewrite (Hf 0%nat H0). simpl INR. unfold Rdiv. ring.
  - rewrite (Hm 0%nat H0), dft_bin_0. unfold np_abs. cbn [fst snd].
    replace (Rsum (multiply sig (np_hamming (length sig)))
             * Rsum (multiply sig (np_hamming (length sig))) + 0 * 0)
      with (Rsqr (Rsum (multiply sig (np_hamming (length sig)))))
      by (unfold Rsqr; ring).
    rewrite sqrt_Rsqr_abs. reflexivity.
Qed.

(** X14: on three float64 streams, [plot_frequency_domain] raises
    [ValueError] before drawing anything if the input stream has fewer than
    two samples or the intermediate or the output stream is empty; on any
    other three float64 streams it returns after drawing one figure whose
    three rows each pair a frequency array and a magnitude array of one
    same length, half the length of the stream. *)
Theorem plot_frequency_domain_outcomes (sig_in sig_mid sig_out : list R) :
  ((length sig_in < 2)%nat \/ sig_mid = [] \/ sig_out = []
   -> plot_frequency_domain sig_in sig_mid sig_out = ([], Raise ValueError))
  /\ (~ ((length sig_in < 2)%nat \/ sig_mid = [] \/ sig_out = [])
      -> exists spec_in spec_mid spec_out,
           plot_frequency_domain sig_in sig_mid sig_out
           = ([FreqFigure spec_in spec_mid spec_out], Ok tt)
           /\ length (fst spec_in) = (length sig_in / 2)%nat
           /\ length (snd spec_in) = (length sig_in / 2)%nat
           /\ length (fst spec_mid) = (length sig_mid / 2)%nat
           /\ length (snd spec_mid) = (length sig_mid / 2)%nat
           /\ length (fst spec_out) = (length sig_out / 2)%nat
           /\ length (snd spec_out) = (length sig_out / 2)%nat).
Proof.
  split.
  - apply plot_frequency_domain_raises.
  - intros Hgood. apply plot_frequency_domain_returns.
    + destruct (le_lt_dec 2 (length sig_in)); [assumption|].
      exfalso. apply Hgood. auto.
    + intros ->. apply Hgood. auto.
    + intros ->. apply Hgood. auto.
Qed.

(** * Every sample line is counted once *)

Local Open Scope nat_scope.

Lemma sample_lines_partition (ls : list string) :
  length (filter (fun l => startswith l "IN:") ls)
  + length (filter (fun l => startswith l "MID:") ls)
  + length (filter (fun l => startswith l "OUT:") ls)
  = length (filter is_sample_line ls).
Proof.
  induction ls as [|l ls IH]; [reflexivity|].
  cbn [filter]. destruct (is_sample_line l) eqn:Hs.
  - destruct (sample_line_cases l Hs)
      as [(H1 & H2 & H3)|[(H1 & H2 & H3)|(H1 & H2 & H3)]];
      rewrite H1, H2, H3; cbn [length]; lia.
  - destruct (not_sample_line l Hs) as (H1 & H2 & H3).
    rewrite H1, H2, H3. exact IH.
Qed.

(** X15: on a well-formed file every line that begins, once stripped, with
    one of the three prefixes yields exactly one sample, in exactly one
    stream: the three streams together have as many samples as the file has
    sample lines, and no more samples than the file has lines. *)
Theorem parse_file_sample_count (fs : filesystem) (filename text : string) :
  fs filename = Some text ->
  well_formed text = true ->
  exists data_in data_mid data_out,
    snd (parse_file fs filename) = Ok (data_in, data_mid, data_out)
    /\ length data_in + length data_mid + length data_out
       = length (filter is_sample_line (stripped_lines text))
    /\ length data_in + length data_mid + length data_out
       <= length (readlines text).
Proof.
  intros Hfs Hwf.
  destruct (parse_loop_well_formed text Hwf)
    as (a & b & c & Hloop & Ha & Hb & Hc).
  exists a, b, c. rewrite (parse_file_found _ _ _ Hfs). cbn [snd].
  split; [exact Hloop|].
  assert (Hsum : length a + length b + length c
                 = length (filter is_sample_line (stripped_lines text))).
  { rewrite Ha, Hb, Hc. apply sample_lines_partition. }
  split; [exact Hsum|].
  rewrite Hsum.
  etransitivity; [apply filter_length_le|].
  unfold stripped_lines. rewrite length_map. reflexivity.
Qed.

(** * The further theorems at work *)

Local Open Scope string_scope.
Local Open Scope list_scope.
Local Open Scope nat_scope.

Lemma parse_file_readable_text_witness :
  parse_file (fs_with malformed_log) FILENAME
  = ([Stdout "Reading resampler_output.txt..."], Raise ValueError).
Proof.
  apply (parse_file_readable_text (fs_with malformed_log) FILENAME
           malformed_log eq_refl).
  reflexivity.
Defined.

Lemma parse_loop_unseparated_sample_witness :
  parse_loop [String "I" (String "N" (String ":" (String "5" (String LF ""))));
              "OUT: 1"] [] [] []
  = Raise ValueError.
Proof.
  apply (parse_loop_unseparated_sample
           (String "I" (String "N" (String ":" (String "5" (String LF "")))))
           ["OUT: 1"] [] [] []); reflexivity.
Defined.

Lemma parse_loop_padding_witness :
  parse_loop ["   IN: 5  "; String "009" "OUT: 7"] [] [] []
  = parse_loop ["IN: 5"; "OUT: 7"] [] [] [].
Proof.
  apply parse_loop_padding.
  constructor; [|constructor; [|constructor]].
  - exists "   ", "  ". repeat split; reflexivity.
  - exists (String "009" ""), "". repeat split; reflexivity.
Defined.

Lemma parse_file_crlf_witness :
  parse_file (fs_with (crlf scenario_1)) FILENAME
  = parse_file (fs_with scenario_1) FILENAME.
Proof.
  apply (parse_file_crlf scenario_1). reflexivity.
Defined.

Lemma write_log_round_trip_witness :
  parse_file
    (fs_with (write_log [(TagIn, 15000); (TagOut, -7); (TagMid, 0);
                         (TagIn, -15000)]%Z))
    FILENAME
  = ([Stdout "Reading resampler_output.txt..."],
     Ok ([15000; -15000], [0], [-7])%Z).
Proof.
  apply (write_log_round_trip
           [(TagIn, 15000); (TagOut, -7); (TagMid, 0); (TagIn, -15000)]%Z).
  - repeat constructor; vm_compute; discriminate.
  - reflexivity.
Defined.

Lemma main_shows_figures_iff_witness :
  In PltShow (fst (main (fs_with scenario_1))).
Proof.
  assert (Hfit : forall text, fs_with scenario_1 FILENAME = Some text ->
                              samples_fit_int64 text = true).
  { intros text H. change (Some scenario_1 = Some text) in H.
    injection H as <-. reflexivity. }
  apply (proj1 (main_shows_figures_iff (fs_with scenario_1) Hfit)).
  exists scenario_1.
  split; [reflexivity|]. split; [reflexivity|].
  vm_compute. repeat split; repeat constructor.
Defined.

Example input_only_log_counts :
  length (prefixed_lines "IN:" input_only_log) = 3
  /\ length (prefixed_lines "MID:" input_only_log) = 0
  /\ length (prefixed_lines "OUT:" input_only_log) = 0.
Proof. vm_compute. auto. Qed.

Lemma main_spectrum_failure_witness :
  snd (main (fs_with input_only_log)) = Raise ValueError
  /\ run_script (fs_with input_only_log)
     = (fst (main (fs_with input_only_log)), 1%Z, true).
Proof.
  apply (main_spectrum_failure (fs_with input_only_log) input_only_log).
  - reflexivity.
  - reflexivity.
  - reflexivity.
  - vm_compute. repeat constructor.
  - right; left. reflexivity.
Defined.

Lemma parse_file_sample_count_witness :
  exists data_in data_mid data_out,
    snd (parse_file (fs_with mixed_log) FILENAME)
    = Ok (data_in, data_mid, data_out)
    /\ length data_in + length data_mid + length data_out
       = length (filter is_sample_line (stripped_lines mixed_log))
    /\ length data_in + length data_mid + length data_out
       <= length (readlines mixed_log).
Proof.
  apply (parse_file_sample_count (fs_with mixed_log) FILENAME mixed_log);
    reflexivity.
Defined.

Local Open Scope R_scope.

Lemma get_fft_db_frequency_axis_witness :
  exists fft_freq mag,
    get_fft_db [1; 0; 0; 0; 0] FS_IN = Ok (fft_freq, mag)
    /\ 0 <= nth 1 fft_freq 0 < FS_IN / 2.
Proof.
  assert (Hsig : [1; 0; 0; 0; 0] <> []) by discriminate.
  destruct (get_fft_db_frequency_axis [1; 0; 0; 0; 0] FS_IN Hsig FS_IN_pos)
    as (fft_freq & mag & Hg & Hk).
  exists fft_freq, mag. split; [exact Hg|].
  apply (Hk 1%nat). simpl. lia.
Defined.

Lemma get_fft_db_magnitude_floor_witness :
  exists fft_freq mag,
    get_fft_db [0; 0; 0; 0] FS_OUT = Ok (fft_freq, mag)
    /\ Forall (fun m => -240 <= m) mag.
Proof.
  assert (Hsig : [0; 0; 0; 0] <> []) by discriminate.
  destruct (get_fft_db_returns [0; 0; 0; 0] FS_OUT Hsig FS_OUT_nonzero)
    as (fft_freq & mag & Hg & _).
  exists fft_freq, mag. split; [exact Hg|].
  apply (get_fft_db_magnitude_floor [0; 0; 0; 0] FS_OUT fft_freq mag Hg).
Defined.

Lemma get_fft_db_window_witness :
  0.08 <= nth 1 (np_hamming 3) 0 <= 1
  /\ nth 2 (np_hamming 3) 0 = 0.08
  /\ Rabs (nth 1 (multiply [1; -2; 3] (np_hamming 3)) 0) <= Rabs (-2).
Proof.
  assert (Hsig : [1; -2; 3] <> []) by discriminate.
  destruct (get_fft_db_window [1; -2; 3] FS_IN Hsig FS_IN_nonzero)
    as (Hk & Hends & _).
  destruct (Hk 1%nat) as (Hb & _ & _ & Habs); [simpl; lia|].
  destruct Hends as [_ Hend]; [simpl; lia|].
  split; [exact Hb|]. split; [exact Hend|exact Habs].
Defined.

Lemma get_fft_db_dc_bin_witness :
  exists fft_freq mag,
    get_fft_db [1; 1; 1; 1] FS_MID = Ok (fft_freq, mag)
    /\ nth 0 fft_freq 0 = 0.
Proof.
  assert (Hn : (2 <= length [1; 1; 1; 1]%R)%nat) by (simpl; lia).
  destruct (get_fft_db_dc_bin [1; 1; 1; 1] FS_MID Hn FS_MID_nonzero)
    as (fft_freq & mag & Hg & Hf & _).
  exists fft_freq, mag. split; assumption.
Defined.

Lemma plot_frequency_domain_outcomes_witness :
  plot_frequency_domain [1; 2; 3] [] [1] = ([], Raise ValueError).
Proof.
  apply (proj1 (plot_frequency_domain_outcomes [1; 2; 3] [] [1])).
  right; left; reflexivity.
Defined.
